(** * WeatherFlow UDP listener (listen.py): model and verified properties

    The listener receives JSON broadcasts of a WeatherFlow hub, queues
    them, and a reporter thread dispatches every envelope on its [type]
    to one [process_*] routine, which filters, prints and publishes.

    The development follows the source top-down: JSON values and the
    Python operations the program applies to them, the run configuration
    ([args]), the effects a routine may perform, the [process_*] routines,
    the two publishers, [report_it], and the two thread bodies.

    The main block (argument parsing, socket set-up, thread start) is
    not modelled: the routines see it through the namespace [args] and
    through the two globals it overrides.  The imports of the two client
    libraries are taken to succeed, and the pauses of the two loops are
    left out. *)

From Stdlib Require Import ZArith List String Ascii Bool Lia.
Import ListNotations.

Local Open Scope string_scope.
Local Open Scope Z_scope.

(** ** JSON values, as [json.loads] returns them *)

(** A float is carried as the decimal the datagram wrote, [m * 10^e];
    [json.loads] keeps of it the nearest double, which is what [int()]
    cuts.  [JNaN] and [JInf] are the tokens [NaN], [Infinity] and
    [-Infinity], which [json.loads] accepts as well.  A dict keeps its
    insertion order. *)
#[local] Unset Elimination Schemes.
Inductive json : Type :=
| JNull
| JBool (b : bool)
| JInt (z : Z)
| JFloat (m e : Z)
| JNaN
| JInf (negative : bool)
| JStr (s : string)
| JList (l : list json)
| JDict (d : list (string * json)).
#[local] Set Elimination Schemes.

(** ** Exceptions and results *)

(** [SinkError] stands for whatever a client library raises when it
    refuses a call or its server cannot be reached. *)
Inductive exn : Type :=
| KeyError (k : json)
| IndexError
| TypeError
| ValueError
| OverflowError
| UnboundLocalError
| SinkError.

Inductive result (A : Type) : Type :=
| OK (a : A)
| Raise (e : exn).
Arguments OK {A} a.
Arguments Raise {A} e.

Definition rbind {A B} (r : result A) (k : A -> result B) : result B :=
  match r with
  | OK a => k a
  | Raise e => Raise e
  end.

(** ** Python operations on JSON values *)

Module Py.

(** Truth value of an optional string option of argparse ([None] when the
    option is absent). *)
Definition truthy (o : option string) : bool :=
  match o with
  | Some s => negb (s =? "")%string
  | None => false
  end.

(** [needle in hay] for two strings: [needle] occurs somewhere in [hay]. *)
Fixpoint str_in (needle hay : string) : bool :=
  if String.prefix needle hay then true
  else match hay with
       | EmptyString => false
       | String _ hay' => str_in needle hay'
       end.

(** [needle in v] for a string [needle] and a JSON value [v]. *)
Definition contains (needle : string) (v : json) : result bool :=
  match v with
  | JStr s => OK (str_in needle s)
  | JList l =>
      OK (existsb (fun x => match x with
                            | JStr s => (s =? needle)%string
                            | _ => false
                            end) l)
  | JDict d => OK (existsb (fun kv => (fst kv =? needle)%string) d)
  | _ => Raise TypeError
  end.

Fixpoint lookup (k : string) (d : list (string * json)) : option json :=
  match d with
  | [] => None
  | (k', v) :: d' => if (k' =? k)%string then Some v else lookup k d'
  end.

(** [v[k]] for a string key. *)
Definition getkey (v : json) (k : string) : result json :=
  match v with
  | JDict d => match lookup k d with
               | Some x => OK x
               | None => Raise (KeyError (JStr k))
               end
  | _ => Raise TypeError
  end.

(** [v[i]] for a constant index that is not negative. *)
Definition getidx (v : json) (i : nat) : result json :=
  match v with
  | JList l => match nth_error l i with
               | Some x => OK x
               | None => Raise IndexError
               end
  | JStr s => match String.get i s with
              | Some c => OK (JStr (String c EmptyString))
              | None => Raise IndexError
              end
  | JDict _ => Raise (KeyError (JInt (Z.of_nat i)))
  | _ => Raise TypeError
  end.

(** [d[k] = v] on a dict: the key keeps its place when it is there
    already and goes last when it is new. *)
Fixpoint setkey (k : string) (v : json) (d : list (string * json))
  : list (string * json) :=
  match d with
  | [] => [(k, v)]
  | (k', v') :: d' =>
      if (k' =? k)%string then (k, v) :: d' else (k', v') :: setkey k v d'
  end.

(** [l[i]] for a Python list and an integer that may be negative. *)
Definition list_index {A} (l : list A) (i : Z) : result A :=
  let n := Z.of_nat (List.length l) in
  let j := if i <? 0 then i + n else i in
  if (0 <=? j) && (j <? n)
  then match nth_error l (Z.to_nat j) with
       | Some x => OK x
       | None => Raise IndexError
       end
  else Raise IndexError.

Definition is_space (c : ascii) : bool :=
  let n := nat_of_ascii c in
  ((9 <=? n) && (n <=? 13))%nat || (n =? 32)%nat.

Definition digit_of (c : ascii) : option Z :=
  let n := nat_of_ascii c in
  if ((48 <=? n) && (n <=? 57))%nat then Some (Z.of_nat (n - 48)) else None.

(** Digits of a decimal literal; single underscores may separate them. *)
Fixpoint digits (cs : list ascii) (acc : Z) (after_digit : bool)
  : option Z :=
  match cs with
  | [] => if after_digit then Some acc else None
  | c :: cs' =>
      match digit_of c with
      | Some d => digits cs' (10 * acc + d) true
      | None =>
          if (nat_of_ascii c =? 95)%nat && after_digit
          then match cs' with
               | [] => None
               | _ => digits cs' acc false
               end
          else None
      end
  end.

Fixpoint lstrip (cs : list ascii) : list ascii :=
  match cs with
  | c :: cs' => if is_space c then lstrip cs' else cs
  | [] => []
  end.

Definition strip (cs : list ascii) : list ascii :=
  rev (lstrip (rev (lstrip cs))).

(** [int(s)] for a string, base ten. *)
Definition int_of_string (s : string) : option Z :=
  match strip (list_ascii_of_string s) with
  | "-"%char :: cs => option_map Z.opp (digits cs 0 false)
  | "+"%char :: cs => digits cs 0 false
  | cs => digits cs 0 false
  end.

(** [n / d] rounded to the nearest integer, a tie to the even one, for
    [0 <= n] and [0 < d]. *)
Definition nearest_even (n d : Z) : Z :=
  let q := n / d in
  let r := n mod d in
  if 2 * r <? d then q
  else if d <? 2 * r then q + 1
  else if Z.even q then q else q + 1.

(** The double [float()] makes of the decimal [a * 10^e], [0 < a], as
    [(M, k)] for [M * 2^k]: the nearest one with 53 bits and an exponent
    of at least -1074.  [None] when that is beyond the largest double:
    [float()] answers infinity. *)
Definition double_of_decimal (a e : Z) : option (Z * Z) :=
  let n := if 0 <=? e then a * 10 ^ e else a in
  let d := if 0 <=? e then 1 else 10 ^ (- e) in
  let L0 := Z.log2 n - Z.log2 d in
  let L := if (if 0 <=? L0 then d * 2 ^ L0 <=? n else d <=? n * 2 ^ (- L0))
           then L0 else L0 - 1 in
  let k := Z.max (L - 52) (-1074) in
  let M := if 0 <=? k then nearest_even n (d * 2 ^ k)
           else nearest_even (n * 2 ^ (- k)) d in
  if (0 <=? k) && (2 ^ 1024 <=? M * 2 ^ k) then None else Some (M, k).

(** [int(x)] for a float: the double cut towards zero. *)
Definition int_of_float (m e : Z) : result Z :=
  if m =? 0 then OK 0
  else match double_of_decimal (Z.abs m) e with
       | Some (M, k) =>
           OK (Z.sgn m * (if 0 <=? k then M * 2 ^ k else M / 2 ^ (- k)))
       | None => Raise OverflowError
       end.

(** [int(v)]: an integer is itself, a float is cut towards zero, a
    string is read as a decimal literal. *)
Definition int (v : json) : result Z :=
  match v with
  | JInt z => OK z
  | JBool b => OK (if b then 1 else 0)
  | JFloat m e => int_of_float m e
  | JNaN => Raise ValueError
  | JInf _ => Raise OverflowError
  | JStr s => match int_of_string s with
              | Some z => OK z
              | None => Raise ValueError
              end
  | _ => Raise TypeError
  end.

(** [len(s) > 0] for a string. *)
Definition nonempty (s : string) : bool :=
  match s with
  | EmptyString => false
  | String _ _ => true
  end.

End Py.

(** ** The sensor status table and its decoder *)

Definition decode_sensor_status_err_text : list (Z * string) :=
  [ (0x001, "lightning failed");
    (0x002, "lignthing noise");
    (0x004, "lightning disturber");
    (0x008, "pressure failed");
    (0x010, "temperature failed");
    (0x020, "rh failed");
    (0x040, "wind failed");
    (0x080, "precip failed");
    (0x100, "light/uv failed") ].

Definition decode_sensor_status_ok_text : Z * string := (0x000, "sensors ok").

(** One turn of the loop over the table. *)
Definition decode_sensor_status_step (idata : Z) (descr : string)
  (x : Z * string) : string :=
  let bit := fst x in
  if Z.land bit idata =? bit
  then (if Py.nonempty descr then descr ++ ", " else descr) ++ snd x
  else descr.

Definition decode_sensor_status (text : json) : result string :=
  rbind (Py.int text) (fun idata =>
    if fst decode_sensor_status_ok_text =? idata
    then OK (snd decode_sensor_status_ok_text)
    else OK (fold_left (decode_sensor_status_step idata)
               decode_sensor_status_err_text "")).

(** ** Run configuration and surroundings *)

(** The namespace argparse returns; an option with no default is [None]
    when absent. *)
Record Args : Type := {
  raw : bool;
  decoded : bool;
  syslog : bool;
  limit : option string;
  exclude : option string;
  indent : bool;
  mqtt : bool;
  mqtt_multisensor : bool;
  no_pub : bool;
  mqtt_broker : option string;
  mqtt_topic : option string;
  address : option string;
  influxdb : bool;
  influxdb_host : string;
  influxdb_port : Z;
  influxdb_user : option string;
  influxdb_pass : option string;
  influxdb_db : string;
  mqtt_user : option string;
  mqtt_pass : option string;
  verbose : bool
}.

(** What the program cannot decide by itself: which epochs the platform
    turns into a local date, which spans [timedelta] accepts, whether
    [publish.single] returns, whether [InfluxDBClient] can be made and
    whether its [write_points] returns. *)
Record World : Type := {
  localtime_ok : Z -> bool;
  timedelta_ok : Z -> bool;
  mqtt_single_ok : bool;
  influx_client_ok : bool;
  influx_write_ok : bool
}.

(** ** Effects *)

(** One operand of a printed or logged line. *)
Inductive piece : Type :=
| PText (s : string)                  (* a literal *)
| PStr (v : json)                     (* str(v) *)
| PJson (v : json) (indented : bool)  (* json.dumps(v, sort_keys=True[, indent=2]) *)
| PDate (t : Z)                       (* fromtimestamp(t).strftime("%Y-%m-%d-%H-%M-%S") *)
| PDelta (secs : Z)                   (* str(timedelta(seconds=secs)) *)
| PNow                                (* str(datetime.now()) *)
| PPid                                (* format(os.getpid()) *)
| PExn (e : exn).                     (* the message of an exception *)

Inductive level : Type := LOG_DEBUG | LOG_INFO | LOG_ERR.

Inductive effect : Type :=
| Print (line : list piece) (newline : bool)
| Syslog (lvl : level) (line : list piece)
| MqttSingle (topic : string) (payload : json) (hostname client_id : string)
    (port : Z) (auth : option (string * option string))
| InfluxWritePoints (host : string) (port : Z) (username password : option string)
    (database : string) (points : list json) (time_precision : string).

(** A routine yields the effects it performed, in order, and then either
    returns or raises. *)
Definition M (A : Type) : Type := (list effect * result A)%type.

Definition ret {A} (a : A) : M A := ([], OK a).
Definition throw {A} (e : exn) : M A := ([], Raise e).
Definition lift {A} (r : result A) : M A := ([], r).
Definition emit (e : effect) : M unit := ([e], OK tt).

Definition bind {A B} (m : M A) (k : A -> M B) : M B :=
  match snd m with
  | OK a => ((fst m ++ fst (k a))%list, snd (k a))
  | Raise e => (fst m, Raise e)
  end.

Declare Scope py_scope.
Delimit Scope py_scope with py.
Notation "x <- m ;; k" := (bind m (fun x => k))
  (at level 61, m at next level, right associativity) : py_scope.
Notation "m ;; k" := (bind m (fun _ => k))
  (at level 61, right associativity) : py_scope.
Local Open Scope py_scope.

Definition when (b : bool) (m : M unit) : M unit := if b then m else ret tt.

(** A [print(..., end='')] and the closing [print('')]. *)
Definition say (line : list piece) : M unit := emit (Print line false).
Definition newline_ : M unit := emit (Print [PText ""] true).

(** ** Subscripts and record construction *)

Inductive sel : Type :=
| Key (k : string)
| Idx (i : nat).

(** [v[s1][s2]...], left to right. *)
Fixpoint subscript (v : json) (path : list sel) : result json :=
  match path with
  | [] => OK v
  | Key k :: p => rbind (Py.getkey v k) (fun x => subscript x p)
  | Idx i :: p => rbind (Py.getidx v i) (fun x => subscript x p)
  end.

(** The right-hand side of one assignment into a record. *)
Inductive rhs : Type :=
| At (path : list sel)
| IntAt (path : list sel)
| Const (v : json).

Definition eval_rhs (data : json) (r : rhs) : result json :=
  match r with
  | At p => subscript data p
  | IntAt p => rbind (subscript data p) (fun v =>
               rbind (Py.int v) (fun z => OK (JInt z)))
  | Const v => OK v
  end.

(** The assignments [rec[k] = ...] of a routine, top to bottom; the first
    that raises ends the routine. *)
Fixpoint assign (data : json) (rows : list (string * rhs))
  (rec : list (string * json)) : result (list (string * json)) :=
  match rows with
  | [] => OK rec
  | (k, r) :: rows' =>
      rbind (eval_rhs data r) (fun v => assign data rows' (Py.setkey k v rec))
  end.

Definition obs (i : nat) : rhs := At [Key "obs"; Idx 0; Idx i].

Definition evt_precip_rows : list (string * rhs) :=
  [ ("timestamp", At [Key "evt"; Idx 0]) ].

Definition evt_strike_rows : list (string * rhs) :=
  [ ("timestamp", At [Key "evt"; Idx 0]);
    ("distance", At [Key "evt"; Idx 1]);
    ("energy", At [Key "evt"; Idx 2]) ].

Definition rapid_wind_rows : list (string * rhs) :=
  [ ("timestamp", At [Key "ob"; Idx 0]);
    ("speed", At [Key "ob"; Idx 1]);
    ("direction", At [Key "ob"; Idx 2]) ].

Definition obs_air_rows : list (string * rhs) :=
  [ ("timestamp", obs 0);
    ("station_pressure", obs 1);
    ("temperature", obs 2);
    ("relative_humidity", obs 3);
    ("lightning_strike_count", obs 4);
    ("lightning_strike_avg_distance", obs 5);
    ("battery", obs 6);
    ("report_interval", obs 7);
    ("firmware_revision", At [Key "firmware_revision"]) ].

Definition obs_st_rows : list (string * rhs) :=
  [ ("timestamp", obs 0);
    ("wind_lull", obs 1);
    ("wind_avg", obs 2);
    ("wind_gust", obs 3);
    ("wind_direction", obs 4);
    ("wind_sample_interval", obs 5);
    ("station_pressure", obs 6);
    ("temperature", obs 7);
    ("relative_humidity", obs 8);
    ("illuminance", obs 9);
    ("uv", obs 10);
    ("solar_radiation", obs 11);
    ("rain_accumulated", obs 12);
    ("precipitation_type", obs 13);
    ("lightning_strike_avg_distance", obs 14);
    ("lightning_strike_count", obs 15);
    ("battery", obs 16);
    ("report_interval", obs 17);
    ("firmware_revision", At [Key "firmware_revision"]) ].

Definition obs_sky_rows : list (string * rhs) :=
  [ ("timestamp", obs 0);
    ("illuminance", obs 1);
    ("uv", obs 2);
    ("rain_accumulated", obs 3);
    ("wind_lull", obs 4);
    ("wind_avg", obs 5);
    ("wind_gust", obs 6);
    ("wind_direction", obs 7);
    ("battery", obs 8);
    ("report_interval", obs 9);
    ("solar_radiation", obs 10);
    ("local_rain_day_accumulation", obs 11);
    ("precipitation_type", obs 12);
    ("wind_sample_interval", obs 13);
    ("firmware_revision", At [Key "firmware_revision"]) ].

Definition device_status_rows (device_type : string) : list (string * rhs) :=
  [ ("device", Const (JStr device_type));
    ("timestamp", At [Key "timestamp"]);
    ("uptime", At [Key "uptime"]);
    ("voltage", At [Key "voltage"]);
    ("firmware_revision", At [Key "firmware_revision"]);
    ("rssi", At [Key "rssi"]);
    ("hub_rssi", At [Key "hub_rssi"]);
    ("sensor_status", At [Key "sensor_status"]);
    ("debug", At [Key "debug"]) ].

Definition hub_status_rows : list (string * rhs) :=
  [ ("device", Const (JStr "hub"));
    ("firmware_revision", IntAt [Key "firmware_revision"]);
    ("uptime", At [Key "uptime"]);
    ("rssi", At [Key "rssi"]);
    ("timestamp", At [Key "timestamp"]);
    ("reset_flags", At [Key "reset_flags"]);
    ("seq", At [Key "seq"]);
    ("radio_stats_version", At [Key "radio_stats"; Idx 0]);
    ("reboot_count", At [Key "radio_stats"; Idx 1]);
    ("i2c_bus_error_count", At [Key "radio_stats"; Idx 2]);
    ("radio_status", At [Key "radio_stats"; Idx 3]);
    ("radio_network_id", At [Key "radio_stats"; Idx 4]) ].

Definition precip_type : list string := [ "none"; "rain"; "hail" ].

(** The classification at the head of [process_device_status]: three
    [in] tests on [data["serial_number"]], in this order. *)
Definition device_type_of (serial_number : json) : result string :=
  rbind (Py.contains "AR-" serial_number) (fun ar =>
    if ar then OK "air" else
  rbind (Py.contains "SK-" serial_number) (fun sk =>
    if sk then OK "sky" else
  rbind (Py.contains "ST-" serial_number) (fun st =>
    if st then OK "tempest" else OK "unknown_type"))).

Definition MQTT_CLIENT_ID : string := "weatherflow".
Definition MQTT_PORT : Z := 1883.

(** [str(v) == "1"]. *)
Definition str_is_1 (v : json) : bool :=
  match v with
  | JInt 1 => true
  | JStr s => (s =? "1")%string
  | _ => false
  end.

(** [v == name] for a string literal [name]. *)
Definition eq_str (v : json) (name : string) : bool :=
  match v with
  | JStr s => (s =? name)%string
  | _ => false
  end.

Section Listener.

Variable args : Args.
Variable world : World.

(** The two globals the main block overrides from the command line. *)
Definition MQTT_HOST : string :=
  match mqtt_broker args with
  | Some b => if (b =? "")%string then "mqtt" else b
  | None => "mqtt"
  end.

Definition MQTT_TOPLEVEL_TOPIC : string :=
  match mqtt_topic args with
  | Some t => if (t =? "")%string then "wf" else t
  | None => "wf"
  end.

Definition logmsg (lvl : level) (msg : list piece) : M unit :=
  emit (Syslog lvl (PText "[wf-udp-listener]: " :: msg)).

Definition loginf (msg : list piece) : M unit := logmsg LOG_INFO msg.

(** [args.exclude and (name in args.exclude)] *)
Definition excluded (name : string) : bool :=
  match exclude args with
  | Some s => negb (s =? "")%string && Py.str_in name s
  | None => false
  end.

(** [args.limit and (name not in args.limit)] *)
Definition off_limit (name : string) : bool :=
  match limit args with
  | Some s => negb (s =? "")%string && negb (Py.str_in name s)
  | None => false
  end.

Definition print_raw (data : json) : M unit :=
  if raw args then
    if indent args then
      emit (Print [PText ""] true) ;;
      emit (Print [PJson data true] true)
    else
      emit (Print [PText "    raw data: "; PText " "; PJson data false] true)
  else ret tt.

Definition mqtt_publish (mqtt_host mqtt_topic : string) (data : json)
  : M unit :=
  emit (Print [PText ("publishing to mqtt://" ++ mqtt_host ++ "/" ++ mqtt_topic)]
          true) ;;
  when (no_pub args)
    (emit (Print [PText "    "; PText " "; PJson data false] true)) ;;
  when (negb (no_pub args))
    (let AUTH :=
       match mqtt_user args with
       | Some u =>
           if (u =? "")%string then None
           else if Py.truthy (mqtt_pass args) then Some (u, mqtt_pass args)
                else Some (u, None)
       | None => None
       end in
     emit (MqttSingle mqtt_topic data mqtt_host MQTT_CLIENT_ID MQTT_PORT AUTH) ;;
     if mqtt_single_ok world then ret tt else throw SinkError).

Definition influx_failed (e : exn) : M unit :=
  emit (Print [PText "Failed to connect to InfluxDB: "; PExn e] true).

Definition influxdb_publish (event : string) (data : json) : M unit :=
  if negb (influx_client_ok world) then
    (* the client could not be made: [payload] was never bound *)
    influx_failed SinkError ;;
    throw UnboundLocalError
  else
    match Py.getkey data "timestamp" with
    | Raise e =>
        influx_failed e ;;
        emit (Print [PText "  Payload was: ";
                     PStr (JDict [("measurement", JStr event)])] true)
    | OK ts =>
        let payload :=
          JDict [("measurement", JStr event); ("time", ts); ("fields", data)] in
        when (verbose args)
          (emit (Print [PText "publishing "; PText event;
                        PText " to influxdb ["; PText (influxdb_host args);
                        PText ":"; PStr (JInt (influxdb_port args));
                        PText "]: "; PStr payload] true)) ;;
        emit (InfluxWritePoints (influxdb_host args) (influxdb_port args)
                (influxdb_user args) (influxdb_pass args) (influxdb_db args)
                [payload] "s") ;;
        if influx_write_ok world then ret tt
        else
          influx_failed SinkError ;;
          emit (Print [PText "  Payload was: "; PStr payload] true)
    end.

(** [datetime.datetime.fromtimestamp(int(rec["timestamp"]))] *)
Definition local_date (rec : list (string * json)) : M Z :=
  ts <- lift (Py.getkey (JDict rec) "timestamp") ;;
  t <- lift (Py.int ts) ;;
  if localtime_ok world t then ret t else throw OverflowError.

(** [datetime.timedelta(seconds=int(rec["uptime"]))] *)
Definition uptime_of (rec : list (string * json)) : M Z :=
  up <- lift (Py.getkey (JDict rec) "uptime") ;;
  secs <- lift (Py.int up) ;;
  if timedelta_ok world secs then ret secs else throw OverflowError.

(** A run of [print(label + str(rec[key]), end='')]. *)
Fixpoint say_fields (rec : list (string * json))
  (rows : list (string * string)) : M unit :=
  match rows with
  | [] => ret tt
  | (label, key) :: rows' =>
      v <- lift (Py.getkey (JDict rec) key) ;;
      say [PText label; PStr v] ;;
      say_fields rec rows'
  end.

(** The topic of a record, with the serial number in front in
    multi-sensor mode. *)
Definition topic_of (serial_number : json) (tail : string) : M string :=
  let topic := MQTT_TOPLEVEL_TOPIC ++ tail in
  if mqtt_multisensor args then
    match serial_number with
    | JStr sn => ret ("sensors/" ++ sn ++ "/" ++ topic)
    | _ => throw TypeError
    end
  else ret topic.

Definition process_evt_precip (data : json) : M (option json) :=
  if excluded "evt_precip" then ret None else
  if off_limit "evt_precip" then ret None else
  when (raw args) (print_raw data) ;;
  serial_number <- lift (Py.getkey data "serial_number") ;;
  evt_precip <- lift (assign data evt_precip_rows []) ;;
  when (decoded args)
    (obs_date <- local_date evt_precip ;;
     say [PText "evt_precip     => "] ;;
     say [PText " ts  = "; PDate obs_date] ;;
     newline_) ;;
  topic <- topic_of serial_number "/evt/precip" ;;
  when (mqtt args) (mqtt_publish MQTT_HOST topic (JDict evt_precip)) ;;
  when (influxdb args) (influxdb_publish topic (JDict evt_precip)) ;;
  ret (Some data).

Definition process_evt_strike (data : json) : M (option json) :=
  if excluded "evt_strike" then ret None else
  if off_limit "evt_strike" then ret None else
  when (raw args) (print_raw data) ;;
  serial_number <- lift (Py.getkey data "serial_number") ;;
  evt_strike <- lift (assign data evt_strike_rows []) ;;
  when (decoded args)
    (obs_date <- local_date evt_strike ;;
     say [PText "evt_strike     => "] ;;
     say [PText " ts  = "; PDate obs_date] ;;
     say_fields evt_strike
       [ (" distance  = ", "distance"); (" energy  = ", "energy") ] ;;
     newline_) ;;
  topic <- topic_of serial_number "/evt/strike" ;;
  when (mqtt args) (mqtt_publish MQTT_HOST topic (JDict evt_strike)) ;;
  when (influxdb args) (influxdb_publish topic (JDict evt_strike)) ;;
  ret (Some data).

Definition process_rapid_wind (data : json) : M (option json) :=
  if excluded "rapid_wind" then ret None else
  if off_limit "rapid_wind" then ret None else
  when (raw args) (print_raw data) ;;
  serial_number <- lift (Py.getkey data "serial_number") ;;
  rapid_wind <- lift (assign data rapid_wind_rows []) ;;
  when (decoded args)
    (obs_date <- local_date rapid_wind ;;
     say [PText "rapid_wind     => "] ;;
     say [PText " ts  = "; PDate obs_date] ;;
     say_fields rapid_wind [ (" mps = ", "speed"); (" dir = ", "direction") ] ;;
     newline_) ;;
  topic <- topic_of serial_number "/rapid_wind" ;;
  when (mqtt args) (mqtt_publish MQTT_HOST topic (JDict rapid_wind)) ;;
  when (influxdb args) (influxdb_publish topic (JDict rapid_wind)) ;;
  ret (Some data).

Definition process_obs_air (data : json) : M (option json) :=
  if excluded "obs_air" then ret None else
  if off_limit "obs_air" then ret None else
  when (raw args) (print_raw data) ;;
  serial_number <- lift (Py.getkey data "serial_number") ;;
  obs_air <- lift (assign data obs_air_rows []) ;;
  when (decoded args)
    (obs_date <- local_date obs_air ;;
     say [PText "obs_air        => "] ;;
     say [PText " serial_number  = "; PStr serial_number] ;;
     say [PText " ts  = "; PDate obs_date] ;;
     say_fields obs_air
       [ (" station_pressure (MB) = ", "station_pressure");
         (" temperature (C) = ", "temperature");
         (" relative_humidity (%)= ", "relative_humidity");
         (" lightning_strikes = ", "lightning_strike_count");
         (" lightning_avg_km  = ", "lightning_strike_avg_distance") ] ;;
     newline_) ;;
  topic <- topic_of serial_number "/obs_air" ;;
  when (mqtt args) (mqtt_publish MQTT_HOST topic (JDict obs_air)) ;;
  when (influxdb args) (influxdb_publish topic (JDict obs_air)) ;;
  ret (Some data).

Definition process_obs_st (data : json) : M (option json) :=
  if excluded "obs_st" then ret None else
  if off_limit "obs_st" then ret None else
  when (raw args) (print_raw data) ;;
  serial_number <- lift (Py.getkey data "serial_number") ;;
  obs_st <- lift (assign data obs_st_rows []) ;;
  when (decoded args)
    (obs_date <- local_date obs_st ;;
     say [PText "obs_st        => "] ;;
     say [PText " serial_number  = "; PStr serial_number] ;;
     say [PText " timestamp  = "; PDate obs_date] ;;
     say_fields obs_st
       [ (" wind_lull  = ", "wind_lull");
         (" wind_avg  = ", "wind_avg");
         (" wind_gust  = ", "wind_gust");
         (" wind_direction  = ", "wind_direction");
         (" wind_sample_interval  = ", "wind_sample_interval");
         (" station_pressure  = ", "station_pressure");
         (" temperature  = ", "temperature");
         (" relative_humidity  = ", "relative_humidity");
         (" illuminance  = ", "illuminance");
         (" uv  = ", "uv");
         (" solar_radiation  = ", "solar_radiation");
         (" rain_accumulated  = ", "rain_accumulated");
         (" precipitation_type  = ", "precipitation_type");
         (" lightning_strike_avg_distance  = ", "lightning_strike_avg_distance");
         (" lightning_strike_count  = ", "lightning_strike_count");
         (" battery = ", "battery");
         (" report_interval = ", "report_interval");
         (" firmware_revision = ", "firmware_revision") ] ;;
     newline_) ;;
  topic <- topic_of serial_number "/obs_st" ;;
  when (mqtt args) (mqtt_publish MQTT_HOST topic (JDict obs_st)) ;;
  when (influxdb args) (influxdb_publish topic (JDict obs_st)) ;;
  ret (Some data).

Definition process_obs_sky (data : json) : M (option json) :=
  if excluded "obs_sky" then ret None else
  if off_limit "obs_sky" then ret None else
  when (raw args) (print_raw data) ;;
  serial_number <- lift (Py.getkey data "serial_number") ;;
  obs_sky <- lift (assign data obs_sky_rows []) ;;
  when (decoded args)
    (obs_date <- local_date obs_sky ;;
     say [PText "obs_sky        => "] ;;
     say [PText " serial_number  = "; PStr serial_number] ;;
     say [PText " timestamp  = "; PDate obs_date] ;;
     say_fields obs_sky
       [ (" illuminance (lux) = ", "illuminance");
         (" uv  = ", "uv");
         (" rain_accumulated (mm) = ", "rain_accumulated");
         (" wind_lull (m/s)= ", "wind_lull");
         (" wind_avg (m/s) = ", "wind_avg");
         (" wind_gust (m/s) = ", "wind_gust");
         (" battery (volts) = ", "battery");
         (" report_interval (mins) = ", "report_interval");
         (" solar_radiation (W/m^2)= ", "solar_radiation");
         (" local day rain accumulated  = ", "local_rain_day_accumulation") ] ;;
     p <- lift (Py.getkey (JDict obs_sky) "precipitation_type") ;;
     i <- lift (Py.int p) ;;
     name <- lift (Py.list_index precip_type i) ;;
     say [PText " precipitation type  = "; PText name] ;;
     say_fields obs_sky
       [ (" wind_direction (deg) = ", "wind_direction");
         (" wind_sample_interval (secs) = ", "wind_sample_interval") ] ;;
     newline_) ;;
  topic <- topic_of serial_number "/obs_sky" ;;
  when (mqtt args) (mqtt_publish MQTT_HOST topic (JDict obs_sky)) ;;
  when (influxdb args) (influxdb_publish topic (JDict obs_sky)) ;;
  ret (Some data).

Definition process_light_debug (data : json) : M (option json) :=
  if excluded "light_debug" then ret None else
  if off_limit "light_debug" then ret None else
  when (raw args) (print_raw data) ;;
  ret None.

Definition process_wind_debug (data : json) : M (option json) :=
  if excluded "wind_debug" then ret None else
  if off_limit "wind_debug" then ret None else
  when (raw args) (print_raw data) ;;
  ret None.

Definition process_rain_debug (data : json) : M (option json) :=
  if excluded "rain_debug" then ret None else
  if off_limit "rain_debug" then ret None else
  when (raw args) (print_raw data) ;;
  ret None.

Definition process_device_status (data : json) : M (option json) :=
  if excluded "device_status" then ret None else
  if off_limit "device_status" then ret None else
  when (raw args) (print_raw data) ;;
  serial_number <- lift (Py.getkey data "serial_number") ;;
  device_type <- lift (device_type_of serial_number) ;;
  device_status <- lift (assign data (device_status_rows device_type) []) ;;
  when (decoded args)
    (obs_date <- local_date device_status ;;
     obs_uptime <- uptime_of device_status ;;
     say [PText "device_status  => "] ;;
     say [PText " serial_number  = "; PStr serial_number] ;;
     say [PText " device_type = "; PText device_type] ;;
     say [PText " ts  = "; PDate obs_date] ;;
     say [PText " uptime  = "; PDelta obs_uptime] ;;
     say_fields device_status
       [ (" voltage  = ", "voltage");
         (" firmware_revision  = ", "firmware_revision");
         (" rssi  = ", "rssi");
         (" hub_rssi  = ", "hub_rssi") ] ;;
     ss <- lift (Py.getkey (JDict device_status) "sensor_status") ;;
     descr <- lift (decode_sensor_status ss) ;;
     say [PText " sensor_status  = "; PText descr] ;;
     dbg <- lift (Py.getkey (JDict device_status) "debug") ;;
     say [PText " debug  = ";
          PText (if str_is_1 dbg then "enabled" else "disabled")] ;;
     newline_) ;;
  topic <- topic_of serial_number ("/status/" ++ device_type) ;;
  when (mqtt args) (mqtt_publish MQTT_HOST topic (JDict device_status)) ;;
  when (influxdb args) (influxdb_publish "device_status" (JDict device_status)) ;;
  ret (Some data).

Definition process_hub_status (data : json) : M (option json) :=
  if excluded "hub_status" then ret None else
  if off_limit "hub_status" then ret None else
  when (raw args) (print_raw data) ;;
  serial_number <- lift (Py.getkey data "serial_number") ;;
  hub_status <- lift (assign data hub_status_rows []) ;;
  when (decoded args)
    (obs_date <- local_date hub_status ;;
     obs_uptime <- uptime_of hub_status ;;
     say [PText "hub_status     => "] ;;
     say [PText " ts  = "; PDate obs_date] ;;
     say_fields hub_status [ (" firmware_revision  = ", "firmware_revision") ] ;;
     say [PText " uptime  = "; PDelta obs_uptime] ;;
     say_fields hub_status [ (" rssi  = ", "rssi") ] ;;
     newline_) ;;
  topic <- topic_of serial_number "/status_hub" ;;
  when (mqtt args) (mqtt_publish MQTT_HOST topic (JDict hub_status)) ;;
  when (influxdb args) (influxdb_publish topic (JDict hub_status)) ;;
  ret (Some data).

(** The routine a type name selects; [None] is the final [else]. *)
Definition dispatch (t : json) : option (json -> M (option json)) :=
  if eq_str t "evt_precip" then Some process_evt_precip
  else if eq_str t "evt_strike" then Some process_evt_strike
  else if eq_str t "rapid_wind" then Some process_rapid_wind
  else if eq_str t "obs_air" then Some process_obs_air
  else if eq_str t "obs_sky" then Some process_obs_sky
  else if eq_str t "obs_st" then Some process_obs_st
  else if eq_str t "device_status" then Some process_device_status
  else if eq_str t "hub_status" then Some process_hub_status
  else if eq_str t "wind_debug" then Some process_wind_debug
  else if eq_str t "light_debug" then Some process_light_debug
  else if eq_str t "rain_debug" then Some process_rain_debug
  else None.

(** The first test evaluates [data["type"]], which raises when the key
    is not there; nothing in [report_it] catches that. *)
Definition report_it (data : json) : M unit :=
  t <- lift (Py.getkey data "type") ;;
  match dispatch t with
  | Some process => process data ;; ret tt
  | None =>
      emit (Print [PText "ERROR: unknown data type in"; PText " "; PStr data]
              true) ;;
      when (syslog args)
        (loginf [PText "unknown data type in "; PJson data false])
  end.

(** ** The two threads *)

Definition thread_banner (thread_name : string) : M unit :=
  when (verbose args)
    (emit (Print [PText "starting thread: "; PText thread_name;
                  PText " pid = "; PPid] true)).

Definition thread_line (thread_name : string) (data : json) : effect :=
  Print [PText thread_name; PText ": "; PNow; PText " "; PJson data false] true.

(** One turn of the listener's loop.  [None]: nothing could be read from
    the socket; [Some None]: what was read is not JSON; both raise inside
    the [try] and are passed over. *)
Definition listener_turn (datagram : option (option json)) (q : list json)
  : list effect * list json :=
  match datagram with
  | Some (Some data) =>
      ((if verbose args
        then [Print [PText "-------------"] true; thread_line "listener" data]
        else [])%list,
       (q ++ [data])%list)
  | _ => ([], q)
  end.

(** What the reporter does with one envelope it took from the queue. *)
Definition reporter_handle (data : json) : M unit :=
  when (verbose args) (emit (thread_line "reporter" data)) ;;
  report_it data.

(** The inner loop of the reporter on a queue nobody else touches: it
    ends at the empty queue or at the first exception, which the bare
    [except] around it swallows.  The result is what was done and what
    is left in the queue. *)
Fixpoint reporter_drain (q : list json) : list effect * list json :=
  match q with
  | [] => ([], [])
  | data :: q' =>
      let m := reporter_handle data in
      match snd m with
      | OK _ => ((fst m ++ fst (reporter_drain q'))%list,
                 snd (reporter_drain q'))
      | Raise _ => (fst m, q')
      end
  end.

(** [n] turns of the reporter's outer loop. *)
Fixpoint reporter_task (n : nat) (q : list json) : list effect * list json :=
  match n with
  | O => ([], q)
  | S n' =>
      let r := reporter_drain q in
      ((fst r ++ fst (reporter_task n' (snd r)))%list,
       snd (reporter_task n' (snd r)))
  end.

(** The two threads side by side.  [wire] is what the socket will still
    deliver; [enqueued] and [handled] record the [put]s and the [get]s in
    the order they happened.  The queue is [queue.Queue]: [put] appends,
    [get] takes the oldest element. *)
Record state : Type := {
  wire : list (option json);
  queue : list json;
  enqueued : list json;
  handled : list json;
  listener_out : list effect;
  reporter_out : list effect
}.

Inductive step : state -> state -> Prop :=
| step_listener : forall datagram rest q enq hd lo ro,
    step {| wire := datagram :: rest; queue := q; enqueued := enq;
            handled := hd; listener_out := lo; reporter_out := ro |}
         {| wire := rest;
            queue := snd (listener_turn (Some datagram) q);
            enqueued := match datagram with
                        | Some data => (enq ++ [data])%list
                        | None => enq
                        end;
            handled := hd;
            listener_out := (lo ++ fst (listener_turn (Some datagram) q))%list;
            reporter_out := ro |}
| step_reporter : forall w data q enq hd lo ro,
    step {| wire := w; queue := data :: q; enqueued := enq;
            handled := hd; listener_out := lo; reporter_out := ro |}
         {| wire := w; queue := q; enqueued := enq;
            handled := (hd ++ [data])%list;
            listener_out := lo;
            reporter_out := (ro ++ fst (reporter_handle data))%list |}.

Inductive steps : state -> state -> Prop :=
| steps_refl : forall s, steps s s
| steps_step : forall s1 s2 s3, steps s1 s2 -> step s2 s3 -> steps s1 s3.

Definition start (datagrams : list (option json)) : state :=
  {| wire := datagrams; queue := []; enqueued := []; handled := [];
     listener_out := []; reporter_out := [] |}.

End Listener.

(** ** Type names and reference runs *)

(** The type names [report_it] knows, as the usage text lists them. *)
Definition type_names : list string :=
  [ "rapid_wind"; "obs_sky"; "obs_air"; "obs_st";
    "hub_status"; "device_status"; "evt_precip"; "evt_strike";
    "wind_debug"; "light_debug"; "rain_debug" ].

Definition debug_names : list string :=
  [ "wind_debug"; "light_debug"; "rain_debug" ].

(** The namespace of a command line that gives these options and leaves
    every other at its default. *)
Definition options (raw decoded mqtt influxdb : bool)
  (limit exclude : option string) : Args :=
  {| raw := raw; decoded := decoded; syslog := false;
     limit := limit; exclude := exclude; indent := false;
     mqtt := mqtt; mqtt_multisensor := false; no_pub := false;
     mqtt_broker := None; mqtt_topic := None; address := None;
     influxdb := influxdb; influxdb_host := "localhost";
     influxdb_port := 8086; influxdb_user := None; influxdb_pass := None;
     influxdb_db := "smartweather";
     mqtt_user := None; mqtt_pass := None; verbose := false |}.

(** The program as installed on a 64-bit Linux in UTC, with a broker
    that answers.  [fromtimestamp] gives the years 1 to 9999 and looks one
    day back for a repeated hour, [timedelta] spans -999999999 days to
    just under 1000000000.  The database client is the one the source
    imports, [influxdb_client]: its [InfluxDBClient] takes a [url] and
    knows no [host], [port], [username], [password] or [database], so the
    call [influxdb_publish] makes of it raises and no client is made. *)
Definition all_up : World :=
  {| localtime_ok := fun t => (-62135510400 <=? t) && (t <? 253402300800);
     timedelta_ok := fun secs =>
       (-86400 * 999999999 <=? secs) && (secs <? 86400 * 1000000000);
     mqtt_single_ok := true;
     influx_client_ok := false;
     influx_write_ok := true |}.

(** The rapid wind envelope of the protocol documentation. *)
Definition rapid_wind_example : json :=
  JDict [ ("type", JStr "rapid_wind");
          ("serial_number", JStr "ST-00001234");
          ("hub_sn", JStr "HB-1");
          ("ob", JList [JInt 1600000000; JFloat 25 (-1); JInt 180]) ].

(** * Properties *)

(** ** Strings *)

Lemma append_assoc (a b c : string) : ((a ++ b) ++ c)%string = (a ++ b ++ c)%string.
Proof. induction a as [|x a IH]; simpl; [reflexivity | now rewrite IH]. Qed.

Lemma nonempty_append_l (a b : string) :
  Py.nonempty a = true -> Py.nonempty (a ++ b) = true.
Proof. destruct a; simpl; [discriminate | reflexivity]. Qed.

(** [a] occurs in [h]: [h] is some text, then [a], then some text. *)
Definition occurs (a h : string) : Prop :=
  exists pre post : string, h = (pre ++ a ++ post)%string.

Lemma prefix_iff (a h : string) :
  String.prefix a h = true <-> exists post, h = (a ++ post)%string.
Proof.
  revert h; induction a as [|x a IH]; intros h; simpl.
  - destruct h; split; eauto.
  - destruct h as [|y h]; simpl.
    + split; [discriminate | intros [post H]; discriminate].
    + destruct (ascii_dec x y) as [->|ne].
      * rewrite IH; split; intros [post H]; exists post; congruence.
      * split; [discriminate | intros [post H]; congruence].
Qed.

Lemma str_in_iff (a h : string) : Py.str_in a h = true <-> occurs a h.
Proof.
  induction h as [|y h IH]; cbn [Py.str_in].
  - destruct (String.prefix a "") eqn:P.
    + split; [intros _ | reflexivity].
      apply prefix_iff in P; destruct P as [post H]; now exists "", post.
    + split; [discriminate | intros [pre [post H]]].
      destruct pre; cbn [append] in H; [| discriminate].
      assert (String.prefix a "" = true) by (apply prefix_iff; eauto).
      congruence.
  - destruct (String.prefix a (String y h)) eqn:P.
    + split; [intros _ | reflexivity].
      apply prefix_iff in P; destruct P as [post H]; now exists "", post.
    + rewrite IH; split.
      * intros [pre [post H]]; exists (String y pre), post.
        cbn [append]; now rewrite H.
      * intros [pre [post H]]; destruct pre as [|z pre]; cbn [append] in H.
        -- assert (String.prefix a (String y h) = true)
             by (apply prefix_iff; eauto).
           congruence.
        -- exists pre, post; congruence.
Qed.

Lemma prefix_str_in (a h : string) :
  String.prefix a h = true -> Py.str_in a h = true.
Proof. intros P; destruct h; cbn [Py.str_in]; now rewrite P. Qed.

(** ** The sensor status decoder *)

(** The descriptions of the rows a mask selects, in table order. *)
Definition selected (idata : Z) (table : list (Z * string)) : list string :=
  map snd (filter (fun x => Z.land (fst x) idata =? fst x) table).

(** The loop of [decode_sensor_status], seen from its accumulator. *)
Fixpoint join_onto (descr : string) (ds : list string) : string :=
  match ds with
  | [] => descr
  | d :: ds' =>
      join_onto ((if Py.nonempty descr then descr ++ ", " else descr) ++ d) ds'
  end.

Lemma fold_step_join (idata : Z) (table : list (Z * string)) (descr : string) :
  fold_left (decode_sensor_status_step idata) table descr
  = join_onto descr (selected idata table).
Proof.
  revert descr; induction table as [|x table IH]; intros descr; [reflexivity|].
  unfold selected in *; simpl.
  unfold decode_sensor_status_step at 2.
  destruct (Z.land (fst x) idata =? fst x); simpl; apply IH.
Qed.

Lemma join_onto_concat (descr : string) (ds : list string) :
  Py.nonempty descr = true ->
  join_onto descr ds = String.concat ", " (descr :: ds).
Proof.
  revert descr; induction ds as [|d ds IH]; intros descr Hne; [reflexivity|].
  cbn [join_onto]; rewrite Hne.
  rewrite IH by (do 2 apply nonempty_append_l; exact Hne).
  destruct ds as [|d' ds]; cbn [String.concat];
    now rewrite !append_assoc.
Qed.

Lemma join_from_empty (ds : list string) :
  Forall (fun d => Py.nonempty d = true) ds ->
  join_onto "" ds = String.concat ", " ds.
Proof.
  destruct 1 as [|d ds Hd _]; [reflexivity|].
  cbn [join_onto Py.nonempty]; now apply join_onto_concat.
Qed.

Lemma selected_nonempty (idata : Z) :
  Forall (fun d => Py.nonempty d = true)
    (selected idata decode_sensor_status_err_text).
Proof.
  unfold selected; apply Forall_forall; intros d Hd.
  apply in_map_iff in Hd; destruct Hd as [x [<- Hx]].
  apply filter_In in Hx; destruct Hx as [Hx _].
  unfold decode_sensor_status_err_text in Hx; simpl in Hx.
  repeat (destruct Hx as [<-|Hx]; [reflexivity|]); contradiction.
Qed.

(** A single-bit mask passes the test [(bit & idata) == bit] exactly when
    that bit of [idata] is set. *)
Lemma land_pow2_testbit (k idata : Z) :
  0 <= k -> (Z.land (2 ^ k) idata =? 2 ^ k) = Z.testbit idata k.
Proof.
  intros Hk; destruct (Z.testbit idata k) eqn:B.
  - apply Z.eqb_eq, Z.bits_inj'; intros i Hi.
    rewrite Z.land_spec, Z.pow2_bits_eqb by assumption.
    destruct (Z.eqb_spec k i) as [<-|_]; [now rewrite B | reflexivity].
  - apply Z.eqb_neq; intros E.
    assert (T : Z.testbit (Z.land (2 ^ k) idata) k = true)
      by (rewrite E, Z.pow2_bits_eqb, Z.eqb_refl by assumption; reflexivity).
    rewrite Z.land_spec, B, andb_false_r in T; discriminate.
Qed.

Lemma land_bit_testbit (bit idata : Z) :
  2 ^ Z.log2 bit = bit ->
  (Z.land bit idata =? bit) = Z.testbit idata (Z.log2 bit).
Proof.
  intros H; rewrite <- (land_pow2_testbit (Z.log2 bit)) by apply Z.log2_nonneg.
  now rewrite H.
Qed.

(** The flags a mask raises: the rows whose bit is set in it. *)
Definition flags_of (idata : Z) : list string :=
  map snd (filter (fun x => Z.testbit idata (Z.log2 (fst x)))
             decode_sensor_status_err_text).

Lemma selected_flags (idata : Z) :
  selected idata decode_sensor_status_err_text = flags_of idata.
Proof.
  unfold selected, flags_of; f_equal; apply filter_ext_in; intros x Hx.
  unfold decode_sensor_status_err_text in Hx; simpl in Hx.
  repeat (destruct Hx as [<-|Hx]; [apply land_bit_testbit; reflexivity|]).
  contradiction.
Qed.

Lemma decode_nonzero (idata : Z) :
  idata <> 0 ->
  decode_sensor_status (JInt idata) = OK (String.concat ", " (flags_of idata)).
Proof.
  intros Hz; unfold decode_sensor_status; cbn [Py.int rbind fst snd decode_sensor_status_ok_text].
  destruct (Z.eqb_spec 0 idata) as [E|_]; [congruence|].
  rewrite fold_step_join, join_from_empty by apply selected_nonempty.
  now rewrite selected_flags.
Qed.

Lemma low_bit_clear (idata k : Z) :
  Z.land idata 0x1FF = 0 -> 0 <= k < 9 -> Z.testbit idata k = false.
Proof.
  intros H Hk.
  assert (L : Z.testbit (Z.land idata 0x1FF) k = false)
    by (rewrite H; apply Z.bits_0).
  rewrite Z.land_spec in L.
  assert (T : Z.testbit 0x1FF k = true).
  { assert (C : k = 0 \/ k = 1 \/ k = 2 \/ k = 3 \/ k = 4 \/ k = 5 \/
                k = 6 \/ k = 7 \/ k = 8) by lia.
    repeat (destruct C as [->|C]; [reflexivity|]); now subst. }
  now rewrite T, andb_true_r in L.
Qed.

(** C4: [decode_sensor_status] of 0 is exactly "sensors ok"; of any other
    mask it is the descriptions of all the defined bits set in the mask,
    in the order of the table, which is ascending bit order, joined by
    ", "; so mask 0x009 gives both "lightning failed" and
    "pressure failed", and several bits set are all reported.  A mask
    given as text is decoded as the integer [int()] reads from it. *)
Theorem decode_sensor_status_joins_flags (idata : Z) :
  decode_sensor_status (JInt idata)
  = OK (if idata =? 0 then "sensors ok"
        else String.concat ", " (flags_of idata))
  /\ map fst decode_sensor_status_err_text
     = map (Z.pow 2) [0; 1; 2; 3; 4; 5; 6; 7; 8]
  /\ decode_sensor_status (JInt 0) = OK "sensors ok"
  /\ decode_sensor_status (JInt 0x009) = OK "lightning failed, pressure failed"
  /\ (forall text, Py.int text = OK idata ->
      decode_sensor_status text = decode_sensor_status (JInt idata)).
Proof.
  repeat split; try reflexivity.
  - destruct (Z.eqb_spec idata 0) as [->|Hz]; [reflexivity|].
    now apply decode_nonzero.
  - intros text H; unfold decode_sensor_status; now rewrite H.
Qed.

(** C9: a mask that is not zero and has none of the nine defined bits set
    (0x200, say) decodes to the empty string, which is neither
    "sensors ok" nor a failure description. *)
Theorem decode_sensor_status_undefined_bits (idata : Z) :
  idata <> 0 ->
  Z.land idata 0x1FF = 0 ->
  decode_sensor_status (JInt idata) = OK ""
  /\ flags_of idata = [].
Proof.
  intros Hz Hlow.
  assert (F : flags_of idata = []).
  { unfold flags_of, decode_sensor_status_err_text; cbn [filter fst].
    repeat (rewrite (low_bit_clear idata _ Hlow) by (vm_compute; split; congruence)).
    reflexivity. }
  split; [|exact F].
  rewrite decode_nonzero by assumption; now rewrite F.
Qed.

Lemma decode_sensor_status_undefined_bits_0x200 :
  decode_sensor_status (JInt 0x200) = OK "" /\ flags_of 0x200 = [].
Proof.
  apply (decode_sensor_status_undefined_bits 0x200);
    [discriminate | reflexivity].
Defined.

(** ** Device classification *)

(** C2, as the code has it: the kind of a device follows from its serial
    number alone and no string makes the classification raise; but the
    three markers are searched anywhere in the serial number, "AR-" first,
    then "SK-", then "ST-", and not only at its start.  A serial number
    that starts with "AR-" is air; one that holds none of the three is
    "unknown_type". *)
Theorem device_type_by_occurrence (sn : string) :
  (String.prefix "AR-" sn = true -> device_type_of (JStr sn) = OK "air")
  /\ (occurs "AR-" sn -> device_type_of (JStr sn) = OK "air")
  /\ (~ occurs "AR-" sn -> occurs "SK-" sn ->
      device_type_of (JStr sn) = OK "sky")
  /\ (~ occurs "AR-" sn -> ~ occurs "SK-" sn -> occurs "ST-" sn ->
      device_type_of (JStr sn) = OK "tempest")
  /\ (~ occurs "AR-" sn -> ~ occurs "SK-" sn -> ~ occurs "ST-" sn ->
      device_type_of (JStr sn) = OK "unknown_type")
  /\ (exists kind, device_type_of (JStr sn) = OK kind
                   /\ In kind ["air"; "sky"; "tempest"; "unknown_type"]).
Proof.
  unfold device_type_of; cbn [Py.contains rbind].
  pose proof (str_in_iff "AR-" sn) as AR.
  pose proof (str_in_iff "SK-" sn) as SK.
  pose proof (str_in_iff "ST-" sn) as ST.
  pose proof (prefix_str_in "AR-" sn) as PR.
  destruct (Py.str_in "AR-" sn), (Py.str_in "SK-" sn), (Py.str_in "ST-" sn);
    repeat split; intros;
    try reflexivity;
    try (exfalso; tauto);
    try (exfalso; intuition congruence);
    try (eexists; split; [reflexivity | simpl; tauto]).
Qed.

Lemma device_type_by_occurrence_example :
  device_type_of (JStr "AR-00001234") = OK "air".
Proof.
  exact (proj1 (device_type_by_occurrence "AR-00001234") eq_refl).
Defined.

(** The claim as written fails on a serial number that starts with "SK-"
    and holds "AR-" further on: it is classified as air.  So is one that
    starts with none of the three markers but holds "AR-". *)
Lemma device_type_not_by_prefix :
  String.prefix "SK-" "SK-AR-1" = true
  /\ device_type_of (JStr "SK-AR-1") = OK "air"
  /\ String.prefix "AR-" "XAR-1" = false
  /\ String.prefix "SK-" "XAR-1" = false
  /\ String.prefix "ST-" "XAR-1" = false
  /\ device_type_of (JStr "XAR-1") = OK "air".
Proof. repeat split. Qed.

(** ** Reasoning about routines *)

Lemma bind_lift_OK {A B} (a : A) (k : A -> M B) : bind (lift (OK a)) k = k a.
Proof. unfold bind, lift; cbn; now destruct (k a). Qed.

Lemma bind_lift_Raise {A B} (e : exn) (k : A -> M B) :
  bind (lift (Raise e)) k = ([], Raise e).
Proof. reflexivity. Qed.

Lemma bind_ret {A B} (a : A) (k : A -> M B) : bind (ret a) k = k a.
Proof. unfold bind, ret; cbn; now destruct (k a). Qed.

Lemma fst_bind {A B} (m : M A) (k : A -> M B) :
  fst (bind m k)
  = match snd m with
    | OK a => (fst m ++ fst (k a))%list
    | Raise _ => fst m
    end.
Proof. unfold bind; now destruct (snd m). Qed.

Lemma snd_bind {A B} (m : M A) (k : A -> M B) :
  snd (bind m k)
  = match snd m with
    | OK a => snd (k a)
    | Raise e => Raise e
    end.
Proof. unfold bind; now destruct (snd m). Qed.

(** Every effect of a routine satisfies [P]. *)
Definition all_effects {A} (P : effect -> Prop) (m : M A) : Prop :=
  Forall P (fst m).

Lemma all_ret {A} P (a : A) : all_effects P (ret a).
Proof. constructor. Qed.

Lemma all_throw {A} P (e : exn) : all_effects P (@throw A e).
Proof. constructor. Qed.

Lemma all_lift {A} P (r : result A) : all_effects P (lift r).
Proof. constructor. Qed.

Lemma all_emit P (e : effect) : P e -> all_effects P (emit e).
Proof. intros H; repeat constructor; exact H. Qed.

Lemma all_bind {A B} P (m : M A) (k : A -> M B) :
  all_effects P m ->
  (forall a, snd m = OK a -> all_effects P (k a)) ->
  all_effects P (bind m k).
Proof.
  unfold all_effects; intros Hm Hk; rewrite fst_bind.
  destruct (snd m) as [a|e]; [|exact Hm].
  apply Forall_app; split; [exact Hm | now apply Hk].
Qed.

Lemma all_when P (b : bool) (m : M unit) :
  (b = true -> all_effects P m) -> all_effects P (when b m).
Proof. destruct b; intros H; [now apply H | apply all_ret]. Qed.

Definition is_print (e : effect) : Prop :=
  match e with
  | Print _ _ => True
  | _ => False
  end.

Definition is_mqtt (e : effect) : bool :=
  match e with
  | MqttSingle _ _ _ _ _ _ => true
  | _ => false
  end.

Definition is_influx (e : effect) : bool :=
  match e with
  | InfluxWritePoints _ _ _ _ _ _ _ => true
  | _ => false
  end.

(** ** Filters *)

(** [name in o] for an optional string of the command line. *)
Definition listed (name : string) (o : option string) : bool :=
  match o with
  | Some s => Py.str_in name s
  | None => false
  end.

(** The filter in the order the specification gives it: the limit first,
    then the exclusion. *)
Definition limit_then_exclude (args : Args) (name : string) : bool :=
  if Py.truthy (limit args) && negb (listed name (limit args)) then true
  else listed name (exclude args).

Lemma str_in_empty (name : string) : name <> "" -> Py.str_in name "" = false.
Proof. destruct name; [congruence | reflexivity]. Qed.

Lemma type_names_nonempty (name : string) : In name type_names -> name <> "".
Proof.
  unfold type_names; simpl; intros H.
  repeat (destruct H as [<-|H]; [discriminate|]); contradiction.
Qed.

(** Both tests only read the configuration, so the order in which the
    source makes them (exclusion first) cannot be told from the order of
    the specification. *)
Lemma filter_order (args : Args) (name : string) :
  name <> "" ->
  limit_then_exclude args name = excluded args name || off_limit args name.
Proof.
  intros Hn; unfold limit_then_exclude, excluded, off_limit, listed, Py.truthy.
  destruct (limit args) as [l|], (exclude args) as [x|]; cbn;
    try destruct (String.eqb_spec l "") as [->|_];
    try destruct (String.eqb_spec x "") as [->|_];
    rewrite ?(str_in_empty name Hn); cbn;
    repeat match goal with |- context [Py.str_in ?a ?b] =>
             destruct (Py.str_in a b) end; reflexivity.
Qed.

(** On the type names themselves, [in] on a single name or on two names
    with a comma between them is membership in that list. *)
Lemma listed_is_membership :
  forallb (fun a => forallb (fun b =>
     Bool.eqb (Py.str_in a b) (a =? b)%string
     && forallb (fun c =>
          Bool.eqb (Py.str_in a (b ++ "," ++ c))
                   ((a =? b)%string || (a =? c)%string)) type_names)
     type_names) type_names = true.
Proof. vm_compute; reflexivity. Qed.

Section Processing.

Variable args : Args.
Variable world : World.

Lemma print_raw_returns (data : json) : snd (print_raw args data) = OK tt.
Proof. unfold print_raw; destruct (raw args), (indent args); reflexivity. Qed.

Lemma when_raw_print_raw (data : json) :
  when (raw args) (print_raw args data) = print_raw args data.
Proof. unfold when, print_raw; now destruct (raw args). Qed.

(** A filtered type name makes its routine return at once. *)
Lemma skipped_run (name : string) (data : json) :
  In name type_names ->
  excluded args name || off_limit args name = true ->
  exists process,
    dispatch args world (JStr name) = Some process
    /\ process data = ([], OK None).
Proof.
  unfold type_names; simpl; intros H S.
  repeat (destruct H as [<-|H];
          [eexists; split; [reflexivity|];
           unfold process_evt_precip, process_evt_strike, process_rapid_wind,
             process_obs_air, process_obs_sky, process_obs_st,
             process_device_status, process_hub_status,
             process_wind_debug, process_light_debug, process_rain_debug;
           destruct (excluded args _); [reflexivity|];
           cbn [orb] in S; now rewrite S|]).
  contradiction.
Qed.

Lemma report_it_dispatched (data t : json) process :
  Py.getkey data "type" = OK t ->
  dispatch args world t = Some process ->
  report_it args world data = (fst (process data),
                               match snd (process data) with
                               | OK _ => OK tt
                               | Raise e => Raise e
                               end).
Proof.
  intros Ht Hd; unfold report_it; rewrite Ht, bind_lift_OK, Hd.
  unfold bind; destruct (snd (process data)); cbn;
    [now rewrite app_nil_r | reflexivity].
Qed.

(** A filtered envelope goes through [report_it] without a trace. *)
Lemma filtered_report (name : string) (data : json) :
  In name type_names ->
  Py.getkey data "type" = OK (JStr name) ->
  excluded args name || off_limit args name = true ->
  report_it args world data = ([], OK tt).
Proof.
  intros Hn Ht S.
  destruct (skipped_run name data Hn S) as [process [Hd Hp]].
  now rewrite (report_it_dispatched data _ process Ht Hd), Hp.
Qed.

(** C3: a record whose type name the non-empty limit does not hold is
    processed without any effect (no raw print, no decoded print, no
    publish, no write), and so is one whose type name the exclusion
    holds; with both given, testing the limit first and the exclusion
    second decides the same as the source does.  The lists are the option
    strings of the command line and "in" is Python's [in] on them. *)
Theorem filtered_envelope_is_silent (name : string) (data : json) :
  In name type_names ->
  Py.getkey data "type" = OK (JStr name) ->
  limit_then_exclude args name = (excluded args name || off_limit args name)
  /\ (Py.truthy (limit args) = true -> listed name (limit args) = false ->
      report_it args world data = ([], OK tt))
  /\ (listed name (exclude args) = true ->
      report_it args world data = ([], OK tt))
  /\ (limit_then_exclude args name = true ->
      report_it args world data = ([], OK tt)).
Proof.
  intros Hn Ht.
  pose proof (filter_order args name (type_names_nonempty name Hn)) as Ord.
  assert (Skip : limit_then_exclude args name = true ->
                 report_it args world data = ([], OK tt))
    by (rewrite Ord; now apply filtered_report).
  repeat split; [exact Ord | | | exact Skip].
  - intros T L; apply Skip; unfold limit_then_exclude; now rewrite T, L.
  - intros X; apply Skip; unfold limit_then_exclude; rewrite X.
    now destruct (Py.truthy (limit args) && negb (listed name (limit args))).
Qed.

(** Whatever the filters decide, the reporter's own trace line of
    [--verbose] comes before the dispatch. *)
Lemma reporter_handle_filtered (name : string) (data : json) :
  In name type_names ->
  Py.getkey data "type" = OK (JStr name) ->
  excluded args name || off_limit args name = true ->
  reporter_handle args world data
  = (if verbose args then [thread_line "reporter" data] else [], OK tt).
Proof.
  intros Hn Ht S; unfold reporter_handle.
  rewrite (filtered_report name data Hn Ht S); now destruct (verbose args).
Qed.

(** C10: a debug envelope that passes the filters is printed raw when
    [--raw] is given and has no other effect, whatever sinks are on. *)
Theorem debug_envelope_only_raw_print (name : string) (data : json) :
  In name debug_names ->
  Py.getkey data "type" = OK (JStr name) ->
  limit_then_exclude args name = false ->
  report_it args world data
  = (if raw args
     then if indent args
          then [Print [PText ""] true; Print [PJson data true] true]
          else [Print [PText "    raw data: "; PText " "; PJson data false] true]
     else [],
     OK tt)
  /\ Forall is_print (fst (report_it args world data)).
Proof.
  intros Hn Ht S.
  assert (Hne : name <> "")
    by (unfold debug_names in Hn; simpl in Hn;
        repeat (destruct Hn as [<-|Hn]; [discriminate|]); contradiction).
  rewrite (filter_order args name Hne) in S.
  apply orb_false_iff in S; destruct S as [Sx Sl].
  assert (E : report_it args world data = (fst (print_raw args data), OK tt)).
  { unfold debug_names in Hn; simpl in Hn.
    repeat (destruct Hn as [<-|Hn];
            [ erewrite report_it_dispatched by (try exact Ht; reflexivity);
              match goal with |- context [?p args data] =>
                unfold p at 1 2 end;
              rewrite Sx, Sl, when_raw_print_raw;
              unfold bind; rewrite print_raw_returns; cbn;
              now rewrite app_nil_r |]).
    contradiction. }
  rewrite E; unfold print_raw; cbn [fst].
  destruct (raw args), (indent args); split; repeat constructor.
Qed.

End Processing.

Lemma filtered_envelope_is_silent_example :
  report_it (options true true true true (Some "obs_air") None) all_up
    rapid_wind_example = ([], OK tt).
Proof.
  exact (proj1 (proj2 (filtered_envelope_is_silent
                         (options true true true true (Some "obs_air") None)
                         all_up "rapid_wind" rapid_wind_example
                         (or_introl eq_refl) eq_refl))
           eq_refl eq_refl).
Defined.

Lemma debug_envelope_only_raw_print_example :
  report_it (options true true true true None None) all_up
    (JDict [("type", JStr "light_debug"); ("serial_number", JStr "SK-00008453")])
  = ([Print [PText "    raw data: "; PText " ";
             PJson (JDict [("type", JStr "light_debug");
                           ("serial_number", JStr "SK-00008453")]) false] true],
     OK tt).
Proof.
  exact (proj1 (debug_envelope_only_raw_print
                  (options true true true true None None) all_up
                  "light_debug"
                  (JDict [("type", JStr "light_debug");
                          ("serial_number", JStr "SK-00008453")])
                  (or_intror (or_introl eq_refl)) eq_refl eq_refl)).
Defined.

(** ** Envelopes with no type, or an unknown one *)

Section Unknown.

Variable args : Args.
Variable world : World.

(** An envelope whose type no test recognises is reported: printed with
    its content, and logged when [--syslog] is given. *)
Lemma unknown_type_reported (data t : json) :
  Py.getkey data "type" = OK t ->
  dispatch args world t = None ->
  report_it args world data
  = ((Print [PText "ERROR: unknown data type in"; PText " "; PStr data] true
      :: if syslog args
         then [Syslog LOG_INFO [PText "[wf-udp-listener]: ";
                                PText "unknown data type in ";
                                PJson data false]]
         else [])%list,
     OK tt).
Proof.
  intros Ht Hd; unfold report_it; rewrite Ht, bind_lift_OK, Hd.
  now destruct (syslog args).
Qed.

Lemma missing_type_raises (d : list (string * json)) :
  Py.lookup "type" d = None ->
  report_it args world (JDict d) = ([], Raise (KeyError (JStr "type"))).
Proof.
  intros H; unfold report_it; cbn [Py.getkey]; now rewrite H.
Qed.

(** C1, where the code departs from it: an envelope with no "type" key
    makes the first test of [report_it] raise [KeyError] before anything
    is printed or logged, and the reporter's bare [except] drops it; the
    final [else], which would report it, is never reached. *)
Theorem missing_type_is_dropped :
  let envelope :=
    JDict [("serial_number", JStr "ST-00001234"); ("hub_sn", JStr "HB-1")] in
  report_it args world envelope = ([], Raise (KeyError (JStr "type")))
  /\ reporter_drain args world [envelope]
     = (if verbose args then [thread_line "reporter" envelope] else [], []).
Proof.
  cbv zeta; split; [reflexivity|].
  unfold reporter_drain, reporter_handle; now destruct (verbose args).
Qed.

End Unknown.

(** ** The reporter's loops *)

Section Reporter.

Variable args : Args.
Variable world : World.

(** What handling one envelope does. *)
Definition handle (d : json) : list effect :=
  fst (reporter_handle args world d).

Lemma reporter_drain_progress (q : list json) :
  exists pre post,
    q = (pre ++ post)%list
    /\ reporter_drain args world q = (flat_map handle pre, post)
    /\ (q <> [] -> pre <> []).
Proof.
  induction q as [|d q IH].
  - exists [], []; repeat split; congruence.
  - destruct IH as [pre [post [Hq [Hd _]]]]; cbn [reporter_drain].
    destruct (snd (reporter_handle args world d)) eqn:R.
    + exists (d :: pre), post; rewrite Hd; cbn [fst snd flat_map].
      repeat split; [now rewrite Hq | discriminate].
    + exists [d], q; cbn [flat_map]; unfold handle; rewrite app_nil_r.
      repeat split; discriminate.
Qed.

(** Every envelope in the queue is handled, in queue order, within as many
    turns of the outer loop as there are envelopes: an exception ends one
    turn, not the loop. *)
Lemma reporter_task_all (n : nat) (q : list json) :
  (List.length q <= n)%nat ->
  reporter_task args world n q = (flat_map handle q, []).
Proof.
  revert q; induction n as [|n IH]; intros q Hn.
  - destruct q; [reflexivity | cbn in Hn; lia].
  - cbn [reporter_task].
    destruct (reporter_drain_progress q) as [pre [post [Hq [Hd Hp]]]].
    rewrite Hd; cbn [fst snd].
    assert (L : (List.length post <= n)%nat).
    { destruct q as [|d q];
        [destruct pre, post; cbn in *; try discriminate; lia|].
      destruct pre as [|p pre]; [exfalso; apply Hp; congruence|].
      rewrite Hq, length_app in Hn; cbn in Hn; lia. }
    rewrite (IH post L); cbn [fst snd].
    now rewrite Hq, flat_map_app.
Qed.

End Reporter.

(** ** Observations that are too short *)


Definition short_obs_st : json :=
  JDict [ ("type", JStr "obs_st");
          ("serial_number", JStr "ST-00001234");
          ("hub_sn", JStr "HB-1");
          ("obs", JList [JList [JInt 1600000000; JFloat 2 (-1)]]);
          ("firmware_revision", JInt 129) ].







Section Short.

Variable args : Args.
Variable world : World.

Lemma bind_print_raw {B} (data : json) (k : unit -> M B) :
  bind (print_raw args data) k
  = ((fst (print_raw args data) ++ fst (k tt))%list, snd (k tt)).
Proof.
  unfold bind; rewrite print_raw_returns; reflexivity.
Qed.








End Short.



(** ** The queue between the two threads *)

(** The envelopes among the datagrams, in the order of arrival. *)
Definition parsed (datagrams : list (option json)) : list json :=
  flat_map (fun d => match d with
                     | Some data => [data]
                     | None => []
                     end) datagrams.

(** The scheduler gives the turn to the listener or to the reporter. *)
Inductive move : Type := Listen | Report.

Section Pipeline.

Variable args : Args.
Variable world : World.

(** What every state of a run satisfies: the envelopes put so far are the
    envelopes taken so far followed by the queue; together with what the
    socket still holds they are the envelopes received; and the reporter
    has done, in order, what each envelope it took asks for. *)
Definition in_order (datagrams : list (option json)) (s : state) : Prop :=
  enqueued s = (handled s ++ queue s)%list
  /\ parsed datagrams = (enqueued s ++ parsed (wire s))%list
  /\ reporter_out s = flat_map (handle args world) (handled s).

Lemma in_order_start (datagrams : list (option json)) :
  in_order datagrams (start datagrams).
Proof. repeat split. Qed.

Lemma in_order_step (datagrams : list (option json)) (s s' : state) :
  step args world s s' -> in_order datagrams s -> in_order datagrams s'.
Proof.
  unfold in_order; intros St [Hq [Hw Ho]]; destruct St; cbn in *.
  - destruct datagram as [data|]; cbn in *.
    + repeat split; [now rewrite Hq, app_assoc | | exact Ho].
      now rewrite Hw, <- app_assoc.
    + repeat split; assumption.
  - repeat split; [now rewrite Hq, <- app_assoc | exact Hw |].
    rewrite Ho, flat_map_app; cbn; now rewrite app_nil_r.
Qed.

Lemma in_order_steps (datagrams : list (option json)) (s s' : state) :
  steps args world s s' -> in_order datagrams s -> in_order datagrams s'.
Proof.
  induction 1 as [|s1 s2 s3 _ IH St]; intros H; [exact H|].
  eapply in_order_step; eauto.
Qed.

Lemma steps_trans (s1 s2 s3 : state) :
  steps args world s1 s2 -> steps args world s2 s3 -> steps args world s1 s3.
Proof.
  intros H12 H23; revert H12.
  induction H23 as [|s2 s3 s4 _ IH St]; intros H12; [exact H12|].
  exact (steps_step args world _ _ _ (IH H12) St).
Qed.

(** A part of the queue is taken by as many moves of the reporter. *)
Lemma reporter_run (pre : list json) :
  forall post w enq hd lo ro,
    steps args world
      {| wire := w; queue := (pre ++ post)%list; enqueued := enq;
         handled := hd; listener_out := lo; reporter_out := ro |}
      {| wire := w; queue := post; enqueued := enq;
         handled := (hd ++ pre)%list; listener_out := lo;
         reporter_out := (ro ++ flat_map (handle args world) pre)%list |}.
Proof.
  induction pre as [|d pre IH]; intros post w enq hd lo ro.
  - cbn; rewrite !app_nil_r; constructor.
  - eapply steps_trans;
      [eapply steps_step; [apply steps_refl | apply step_reporter]|].
    specialize (IH post w enq (hd ++ [d])%list lo
                  (ro ++ fst (reporter_handle args world d))%list).
    rewrite <- !app_assoc in IH; exact IH.
Qed.

(** *** The two loops under a scheduler *)

(** One turn of [listener_task]'s loop on what the socket delivers next;
    with nothing to deliver the thread waits in [recvfrom]. *)
Definition listen (s : state) : state :=
  let r := listener_turn args (hd_error (wire s)) (queue s) in
  {| wire := tl (wire s);
     queue := snd r;
     enqueued := (enqueued s ++ parsed (firstn 1 (wire s)))%list;
     handled := handled s;
     listener_out := (listener_out s ++ fst r)%list;
     reporter_out := reporter_out s |}.

(** One turn of [reporter_task]'s outer loop on the queue as it stands;
    what it took is what the queue has lost. *)
Definition report (s : state) : state :=
  let r := reporter_drain args world (queue s) in
  {| wire := wire s;
     queue := snd r;
     enqueued := enqueued s;
     handled :=
       (handled s
        ++ firstn (List.length (queue s) - List.length (snd r)) (queue s))%list;
     listener_out := listener_out s;
     reporter_out := (reporter_out s ++ fst r)%list |}.

Fixpoint play (schedule : list move) (s : state) : state :=
  match schedule with
  | [] => s
  | Listen :: schedule' => play schedule' (listen s)
  | Report :: schedule' => play schedule' (report s)
  end.

(** The listener reads all the socket still holds, then the reporter has
    a turn for every envelope there can be. *)
Definition finish (s : state) : list move :=
  (repeat Listen (List.length (wire s))
   ++ repeat Report (List.length (queue s) + List.length (wire s)))%list.

Lemma play_app (a b : list move) (s : state) :
  play (a ++ b) s = play b (play a s).
Proof.
  revert s; induction a as [|m a IH]; intros s; [reflexivity|].
  destruct m; cbn [app play]; apply IH.
Qed.

(** A turn of the listener is at most one move of the listener. *)
Lemma listen_steps (s : state) : steps args world s (listen s).
Proof.
  destruct s as [w q enq hd lo ro]; unfold listen;
    cbn [wire queue enqueued handled listener_out reporter_out].
  destruct w as [|d w].
  - cbn; rewrite !app_nil_r; apply steps_refl.
  - eapply steps_step; [apply steps_refl|].
    pose proof (step_listener args world d w q enq hd lo ro) as St.
    destruct d as [data|]; cbn in St |- *; [exact St|].
    rewrite (app_nil_r enq); exact St.
Qed.

(** A turn of the reporter's outer loop is a run of moves of the
    reporter: one for every envelope [reporter_drain] took. *)
Lemma report_steps (s : state) : steps args world s (report s).
Proof.
  destruct s as [w q enq hd lo ro]; unfold report;
    cbn [wire queue enqueued handled listener_out reporter_out].
  destruct (reporter_drain_progress args world q) as [pre [post [Hq [Hd _]]]].
  rewrite Hd; cbn [fst snd]; subst q.
  replace (firstn (List.length (pre ++ post) - List.length post) (pre ++ post))
    with pre; [apply reporter_run|].
  rewrite length_app, Nat.add_sub, firstn_app, Nat.sub_diag, firstn_all.
  cbn; now rewrite app_nil_r.
Qed.

Lemma play_steps (schedule : list move) (s : state) :
  steps args world s (play schedule s).
Proof.
  revert s; induction schedule as [|m schedule IH]; intros s;
    [apply steps_refl|].
  destruct m; cbn [play];
    (eapply steps_trans; [|apply IH]);
    [apply listen_steps | apply report_steps].
Qed.

(** The listener's turns alone put every envelope of the socket at the
    end of the queue and leave the reporter's output alone. *)
Lemma play_listen (s : state) :
  wire (play (repeat Listen (List.length (wire s))) s) = []
  /\ queue (play (repeat Listen (List.length (wire s))) s)
     = (queue s ++ parsed (wire s))%list
  /\ reporter_out (play (repeat Listen (List.length (wire s))) s)
     = reporter_out s.
Proof.
  destruct s as [w q enq hd lo ro];
    cbn [wire queue enqueued handled listener_out reporter_out].
  revert q enq lo; induction w as [|d w IH]; intros q enq lo.
  - cbn; now rewrite app_nil_r.
  - cbn [List.length repeat play]; unfold listen at 1 2 3;
      cbn [wire queue enqueued handled listener_out reporter_out tl hd_error].
    destruct (IH (snd (listener_turn args (Some d) q))
                 (enq ++ parsed (firstn 1 (d :: w)))%list
                 (lo ++ fst (listener_turn args (Some d) q))%list)
      as [Hw [Hq Ho]].
    rewrite Hw, Hq, Ho; repeat split.
    destruct d as [data|]; cbn; [now rewrite <- app_assoc | reflexivity].
Qed.

(** The reporter's turns alone are [reporter_task]. *)
Lemma play_report (n : nat) (s : state) :
  wire (play (repeat Report n) s) = wire s
  /\ queue (play (repeat Report n) s)
     = snd (reporter_task args world n (queue s))
  /\ reporter_out (play (repeat Report n) s)
     = (reporter_out s ++ fst (reporter_task args world n (queue s)))%list.
Proof.
  revert s; induction n as [|n IH]; intros s.
  - cbn; now rewrite app_nil_r.
  - cbn [repeat play reporter_task].
    destruct (IH (report s)) as [Hw [Hq Ho]].
    rewrite Hw, Hq, Ho; cbn [report wire queue reporter_out fst snd].
    now rewrite app_assoc.
Qed.

Lemma firstn_length_app {A} (l r : list A) :
  firstn (List.length l) (l ++ r) = l.
Proof.
  rewrite firstn_app, Nat.sub_diag, firstn_all; cbn; now rewrite app_nil_r.
Qed.

Lemma skipn_length_app {A} (l r : list A) :
  skipn (List.length l) (l ++ r) = r.
Proof.
  rewrite skipn_app, Nat.sub_diag, skipn_all; reflexivity.
Qed.

Lemma parsed_length (w : list (option json)) :
  (List.length (parsed w) <= List.length w)%nat.
Proof.
  unfold parsed; induction w as [|[d|] w IH];
    cbn [flat_map app List.length] in *; lia.
Qed.

(** C6: the two loops keep the order of arrival.  Let the scheduler give
    the turns in any order: a turn of the listener is one turn of
    [listener_task]'s loop, a turn of the reporter one turn of
    [reporter_task]'s outer loop.  Then what the reporter has done is the
    handling, one after the other, of the first [k] envelopes received,
    and the queue followed by what the socket still holds is the rest of
    them, in the order of arrival.  Once the listener has read everything
    and the reporter has had a turn for every envelope, every envelope
    has been handled, in that order.  The same holds when the threads
    change turns between two envelopes: every run of the scheduler is a
    run of single moves, and in every run of single moves the envelopes
    handled are the first ones received and the reporter's output is what
    [reporter_task] gives on them. *)
Theorem reporter_output_in_arrival_order
  (datagrams : list (option json)) (schedule : list move) :
  (exists k,
      reporter_out (play schedule (start datagrams))
      = flat_map (handle args world) (firstn k (parsed datagrams))
      /\ (queue (play schedule (start datagrams))
          ++ parsed (wire (play schedule (start datagrams))))%list
         = skipn k (parsed datagrams))
  /\ reporter_out (play (finish (play schedule (start datagrams)))
                        (play schedule (start datagrams)))
     = flat_map (handle args world) (parsed datagrams)
  /\ queue (play (finish (play schedule (start datagrams)))
                 (play schedule (start datagrams))) = []
  /\ steps args world (start datagrams) (play schedule (start datagrams))
  /\ forall s : state,
       steps args world (start datagrams) s ->
       handled s = firstn (List.length (handled s)) (parsed datagrams)
       /\ enqueued s = (handled s ++ queue s)%list
       /\ reporter_task args world (List.length (handled s)) (handled s)
          = (reporter_out s, []).
Proof.
  pose proof (play_steps schedule (start datagrams)) as Run.
  destruct (in_order_steps datagrams _ _ Run (in_order_start datagrams))
    as [Hq [Hw Ho]].
  set (s := play schedule (start datagrams)) in *.
  assert (All : parsed datagrams
                = (handled s ++ queue s ++ parsed (wire s))%list)
    by (now rewrite Hw, Hq, <- app_assoc).
  destruct (play_listen s) as [Lw [Lq Lo]].
  destruct (play_report (List.length (queue s) + List.length (wire s))
              (play (repeat Listen (List.length (wire s))) s))
    as [_ [Rq Ro]].
  assert (T : reporter_task args world
                (List.length (queue s) + List.length (wire s))
                (queue s ++ parsed (wire s))
              = (flat_map (handle args world) (queue s ++ parsed (wire s)), [])).
  { apply reporter_task_all.
    rewrite length_app; pose proof (parsed_length (wire s)); lia. }
  rewrite Lq, T in Rq, Ro; rewrite Lo in Ro; cbn [fst snd] in Rq, Ro.
  split; [|split; [|split; [|split]]].
  - exists (List.length (handled s)); rewrite All; split.
    + now rewrite firstn_length_app.
    + now rewrite skipn_length_app.
  - unfold finish; rewrite play_app, Ro, Ho, <- flat_map_app.
    now rewrite All.
  - unfold finish; now rewrite play_app.
  - exact Run.
  - intros s' Run'.
    destruct (in_order_steps datagrams _ _ Run' (in_order_start datagrams))
      as [Hq' [Hw' Ho']].
    split; [|split].
    + rewrite Hw', Hq', <- app_assoc; now rewrite firstn_length_app.
    + exact Hq'.
    + rewrite Ho'; apply reporter_task_all; lia.
Qed.

End Pipeline.

(** Three envelopes with a datagram that is no JSON between them, the
    second one too short to decode: the reporter's raw prints come in the
    order of arrival, whichever thread had its turn first. *)
Lemma reporter_output_in_arrival_order_example :
  let E1 := rapid_wind_example in
  let E2 := short_obs_st in
  let E3 := JDict [("type", JStr "light_debug")] in
  let args := options true false false false None None in
  let s := play args all_up [Listen; Report; Report; Listen; Listen]
             (start [Some E1; None; Some E2; Some E3]) in
  reporter_out (play args all_up (finish s) s)
  = [ Print [PText "    raw data: "; PText " "; PJson E1 false] true;
      Print [PText "    raw data: "; PText " "; PJson E2 false] true;
      Print [PText "    raw data: "; PText " "; PJson E3 false] true ].
Proof.
  intros E1 E2 E3 args s.
  exact (eq_trans
           (proj1 (proj2 (reporter_output_in_arrival_order args all_up
                            [Some E1; None; Some E2; Some E3]
                            [Listen; Report; Report; Listen; Listen])))
           eq_refl).
Defined.

(** ** The rapid wind example, end to end *)

Lemma excluded_unset (args : Args) (name : string) :
  Py.truthy (exclude args) = false -> excluded args name = false.
Proof.
  unfold excluded, Py.truthy; destruct (exclude args) as [s|]; [|reflexivity].
  now intros ->.
Qed.

Lemma off_limit_unset (args : Args) (name : string) :
  Py.truthy (limit args) = false -> off_limit args name = false.
Proof.
  unfold off_limit, Py.truthy; destruct (limit args) as [s|]; [|reflexivity].
  now intros ->.
Qed.

Lemma toplevel_topic_default (args : Args) :
  Py.truthy (mqtt_topic args) = false -> MQTT_TOPLEVEL_TOPIC args = "wf".
Proof.
  unfold MQTT_TOPLEVEL_TOPIC, Py.truthy.
  destruct (mqtt_topic args) as [s|]; [|reflexivity].
  destruct (s =? "")%string; [reflexivity | discriminate].
Qed.

(** C7: the rapid wind envelope of the documentation decodes to the
    record with timestamp 1600000000, speed 2.5 and direction 180; with
    [--mqtt], no filter, and the topic options left alone (no [-t], no
    [-M], no [-n]) the reporter makes exactly one publish call, to
    "wf/rapid_wind", whose body is the JSON of that record: these three
    keys and no other. *)
Theorem rapid_wind_example_published (args : Args) (world : World) :
  mqtt args = true ->
  Py.truthy (limit args) = false ->
  Py.truthy (exclude args) = false ->
  Py.truthy (mqtt_topic args) = false ->
  mqtt_multisensor args = false ->
  no_pub args = false ->
  (decoded args = true -> localtime_ok world 1600000000 = true) ->
  let record := [ ("timestamp", JInt 1600000000);
                  ("speed", JFloat 25 (-1));
                  ("direction", JInt 180) ] in
  assign rapid_wind_example rapid_wind_rows [] = OK record
  /\ exists auth,
       filter is_mqtt (fst (report_it args world rapid_wind_example))
       = [MqttSingle "wf/rapid_wind" (JDict record) (MQTT_HOST args)
            "weatherflow" 1883 auth].
Proof.
  intros Hm Hl Hx Ht Hs Hn Hd record; split; [reflexivity|].
  erewrite report_it_dispatched by reflexivity; cbn [fst].
  unfold process_rapid_wind, topic_of.
  rewrite (excluded_unset _ _ Hx), (off_limit_unset _ _ Hl),
    (toplevel_topic_default _ Ht), Hm, Hs.
  unfold mqtt_publish, influxdb_publish, print_raw, local_date, influx_failed.
  rewrite Hn; eexists.
  destruct (raw args), (indent args), (influxdb args), (verbose args),
    (mqtt_single_ok world), (influx_client_ok world), (influx_write_ok world);
    (destruct (decoded args);
     [cbn [when]; cbn -[filter is_mqtt]; rewrite (Hd eq_refl) |]);
    reflexivity.
Qed.

Lemma rapid_wind_example_published_run :
  exists auth,
    filter is_mqtt
      (fst (report_it (options false true true false None None) all_up
              rapid_wind_example))
    = [MqttSingle "wf/rapid_wind"
         (JDict [ ("timestamp", JInt 1600000000);
                  ("speed", JFloat 25 (-1));
                  ("direction", JInt 180) ])
         "mqtt" "weatherflow" 1883 auth].
Proof.
  exact (proj2 (rapid_wind_example_published
                  (options false true true false None None) all_up
                  eq_refl eq_refl eq_refl eq_refl eq_refl eq_refl
                  (fun _ => eq_refl))).
Defined.

(** ** Points written to the time series *)

(** The topic tail of each kind of record that has one topic. *)
Definition kind_topics : list (string * string) :=
  [ ("evt_precip", "/evt/precip");
    ("evt_strike", "/evt/strike");
    ("rapid_wind", "/rapid_wind");
    ("obs_air", "/obs_air");
    ("obs_st", "/obs_st");
    ("obs_sky", "/obs_sky");
    ("hub_status", "/status_hub") ].

(** The point [influxdb_publish] builds. *)
Definition point (measurement : string) (time : json)
  (fields : list (string * json)) : json :=
  JDict [ ("measurement", JStr measurement);
          ("time", time);
          ("fields", JDict fields) ].

(** The measurement a record of type [name] is written under: the fixed
    name "device_status" for a device status, and for every other kind
    the topic the record is published to. *)
Definition measurement_of (args : Args) (name : string) (data : json)
  (m : string) : Prop :=
  if (name =? "device_status")%string then m = "device_status"
  else exists tail,
      In (name, tail) kind_topics
      /\ if mqtt_multisensor args
         then exists sn,
             Py.getkey data "serial_number" = OK (JStr sn)
             /\ m = ("sensors/" ++ sn ++ "/" ++ MQTT_TOPLEVEL_TOPIC args ++ tail)%string
         else m = (MQTT_TOPLEVEL_TOPIC args ++ tail)%string.

(** A write carries one point: a measurement, the record's timestamp as
    its time, the whole record as its fields, at second precision. *)
Definition writes_point (ok : string -> Prop) (e : effect) : Prop :=
  match e with
  | InfluxWritePoints _ _ _ _ _ points precision =>
      exists m ts rec,
        points = [point m ts rec]
        /\ precision = "s"
        /\ Py.lookup "timestamp" rec = Some ts
        /\ ok m
  | _ => True
  end.

Section Points.

Variable args : Args.
Variable world : World.
Variable ok : string -> Prop.

Lemma all_print_raw (data : json) :
  all_effects (writes_point ok) (print_raw args data).
Proof.
  unfold print_raw; destruct (raw args), (indent args);
    repeat constructor.
Qed.

Lemma all_say (line : list piece) : all_effects (writes_point ok) (say line).
Proof. repeat constructor. Qed.

Lemma all_newline : all_effects (writes_point ok) newline_.
Proof. repeat constructor. Qed.

Lemma all_say_fields (rec : list (string * json)) (rows : list (string * string)) :
  all_effects (writes_point ok) (say_fields rec rows).
Proof.
  induction rows as [|[label key] rows IH]; cbn [say_fields];
    [apply all_ret|].
  apply all_bind; [apply all_lift | intros v _].
  apply all_bind; [apply all_say | intros _ _; exact IH].
Qed.

Lemma all_local_date (rec : list (string * json)) :
  all_effects (writes_point ok) (local_date world rec).
Proof.
  unfold local_date.
  apply all_bind; [apply all_lift | intros ts _].
  apply all_bind; [apply all_lift | intros t _].
  destruct (localtime_ok world t); [apply all_ret | apply all_throw].
Qed.

Lemma all_uptime_of (rec : list (string * json)) :
  all_effects (writes_point ok) (uptime_of world rec).
Proof.
  unfold uptime_of.
  apply all_bind; [apply all_lift | intros up _].
  apply all_bind; [apply all_lift | intros secs _].
  destruct (timedelta_ok world secs); [apply all_ret | apply all_throw].
Qed.

Lemma all_mqtt_publish (host topic : string) (data : json) :
  all_effects (writes_point ok) (mqtt_publish args world host topic data).
Proof.
  unfold mqtt_publish.
  destruct (no_pub args), (mqtt_single_ok world); repeat constructor.
Qed.

Lemma all_influxdb_publish (event : string) (rec : list (string * json)) :
  ok event ->
  all_effects (writes_point ok)
    (influxdb_publish args world event (JDict rec)).
Proof.
  intros Hok; unfold influxdb_publish, influx_failed; cbn [Py.getkey].
  destruct (influx_client_ok world); cbn [negb]; [|repeat constructor].
  destruct (Py.lookup "timestamp" rec) as [ts|] eqn:L; [|repeat constructor].
  assert (W : writes_point ok
                (InfluxWritePoints (influxdb_host args) (influxdb_port args)
                   (influxdb_user args) (influxdb_pass args) (influxdb_db args)
                   [JDict [("measurement", JStr event); ("time", ts);
                           ("fields", JDict rec)]] "s"))
    by (exists event, ts, rec; repeat split; assumption).
  destruct (verbose args), (influx_write_ok world);
    repeat constructor; exact W.
Qed.

Lemma topic_of_quiet (serial_number : json) (tail : string) :
  all_effects (writes_point ok) (topic_of args serial_number tail).
Proof.
  unfold topic_of; destruct (mqtt_multisensor args); [|apply all_ret].
  destruct serial_number; first [apply all_ret | apply all_throw].
Qed.

Lemma topic_of_result (serial_number : json) (tail topic : string) :
  snd (topic_of args serial_number tail) = OK topic ->
  if mqtt_multisensor args
  then exists sn,
      serial_number = JStr sn
      /\ topic = ("sensors/" ++ sn ++ "/" ++ MQTT_TOPLEVEL_TOPIC args ++ tail)%string
  else topic = (MQTT_TOPLEVEL_TOPIC args ++ tail)%string.
Proof.
  unfold topic_of; destruct (mqtt_multisensor args); cbn.
  - destruct serial_number; cbn; try discriminate.
    intros [= <-]; eauto.
  - now intros [= <-].
Qed.

End Points.

Section Measurements.

Variable args : Args.
Variable world : World.
Variable data : json.

(** Walks through a routine, effect by effect. *)
Ltac walk :=
  repeat first
    [ apply all_ret | apply all_throw | apply all_lift
    | apply all_print_raw | apply all_say | apply all_newline
    | apply all_say_fields | apply all_local_date | apply all_uptime_of
    | apply all_mqtt_publish | apply topic_of_quiet
    | apply all_when; intros _
    | apply all_bind; [| intros ? ?] ].

(** The measurement of a kind whose record goes out under its topic. *)
Ltac by_topic :=
  apply all_influxdb_publish; unfold measurement_of; cbn [String.eqb Ascii.eqb Bool.eqb];
  eexists; split; [cbn [In kind_topics]; repeat first [left; reflexivity | right]|];
  match goal with
  | T : snd (topic_of _ ?sn _) = OK _, S : snd (lift (Py.getkey _ "serial_number")) = OK ?sn |- _ =>
      apply topic_of_result in T; cbn [snd lift] in S;
      destruct (mqtt_multisensor args);
      [destruct T as [s [-> ->]]; eauto | exact T]
  end.

Ltac gated :=
  destruct (excluded args _); [apply all_ret|];
  destruct (off_limit args _); [apply all_ret|].

Lemma process_evt_precip_points :
  all_effects (writes_point (measurement_of args "evt_precip" data))
    (process_evt_precip args world data).
Proof. unfold process_evt_precip; gated; walk; by_topic. Qed.

Lemma process_evt_strike_points :
  all_effects (writes_point (measurement_of args "evt_strike" data))
    (process_evt_strike args world data).
Proof. unfold process_evt_strike; gated; walk; by_topic. Qed.

Lemma process_rapid_wind_points :
  all_effects (writes_point (measurement_of args "rapid_wind" data))
    (process_rapid_wind args world data).
Proof. unfold process_rapid_wind; gated; walk; by_topic. Qed.

Lemma process_obs_air_points :
  all_effects (writes_point (measurement_of args "obs_air" data))
    (process_obs_air args world data).
Proof. unfold process_obs_air; gated; walk; by_topic. Qed.

Lemma process_obs_st_points :
  all_effects (writes_point (measurement_of args "obs_st" data))
    (process_obs_st args world data).
Proof. unfold process_obs_st; gated; walk; by_topic. Qed.

Lemma process_obs_sky_points :
  all_effects (writes_point (measurement_of args "obs_sky" data))
    (process_obs_sky args world data).
Proof. unfold process_obs_sky; gated; walk; by_topic. Qed.

Lemma process_hub_status_points :
  all_effects (writes_point (measurement_of args "hub_status" data))
    (process_hub_status args world data).
Proof. unfold process_hub_status; gated; walk; by_topic. Qed.

Lemma process_device_status_points :
  all_effects (writes_point (measurement_of args "device_status" data))
    (process_device_status args world data).
Proof.
  unfold process_device_status; gated; walk.
  apply all_influxdb_publish; reflexivity.
Qed.

Lemma process_debug_points (name : string) :
  all_effects (writes_point (measurement_of args name data))
    (process_light_debug args data)
  /\ all_effects (writes_point (measurement_of args name data))
       (process_wind_debug args data)
  /\ all_effects (writes_point (measurement_of args name data))
       (process_rain_debug args data).
Proof.
  unfold process_light_debug, process_wind_debug, process_rain_debug.
  repeat split; gated; walk.
Qed.

End Measurements.

(** The call [influxdb_publish] is written to make, where a client
    answers to the interface it is called with: a write carries exactly
    one point, at second precision, whose time is the record's timestamp
    and whose fields are the whole record, the timestamp included; its
    measurement is the name the routine passes, which is "device_status"
    for a device status and for every other kind the topic the record is
    published to (with the serial number in front in multi-sensor mode). *)
Lemma influx_point_shape (args : Args) (world : World)
  (name : string) (data : json) :
  Py.getkey data "type" = OK (JStr name) ->
  Forall (writes_point (measurement_of args name data))
    (fst (report_it args world data))
  /\ forall event rec ts,
       influx_client_ok world = true ->
       Py.lookup "timestamp" rec = Some ts ->
       filter is_influx (fst (influxdb_publish args world event (JDict rec)))
       = [InfluxWritePoints (influxdb_host args) (influxdb_port args)
            (influxdb_user args) (influxdb_pass args) (influxdb_db args)
            [point event ts rec] "s"].
Proof.
  intros Ht; split.
  - change (all_effects (writes_point (measurement_of args name data))
              (report_it args world data)).
    unfold report_it; rewrite Ht, bind_lift_OK; unfold dispatch, eq_str.
    destruct (process_debug_points args data name) as [Dl [Dw Dr]].
    repeat match goal with
           | |- context [String.eqb name ?s] =>
               destruct (String.eqb_spec name s) as [->|_];
               [apply all_bind; [| intros; apply all_ret] |]
           end;
      first [ apply process_evt_precip_points
            | apply process_evt_strike_points
            | apply process_rapid_wind_points
            | apply process_obs_air_points
            | apply process_obs_sky_points
            | apply process_obs_st_points
            | apply process_device_status_points
            | apply process_hub_status_points
            | assumption
            | idtac ].
    apply all_bind; [apply all_emit; exact I | intros _ _].
    apply all_when; intros _; apply all_emit; exact I.
  - intros event rec ts Hc Hl; unfold influxdb_publish; cbn [Py.getkey].
    rewrite Hc, Hl; cbn [negb].
    destruct (verbose args), (influx_write_ok world); reflexivity.
Qed.

(** * The routines beyond the claims *)

(** ** The common shape of the eight decoding routines *)

(** The eight routines that build a record differ in four places only:
    how the record is built, what the decoded summary prints, what the
    topic ends in, and under which name the record is written to the time
    series.  [run] is the text they share; each routine is shown below to
    be [run] at its own four parts. *)
Record parts : Type := {
  p_name : string;
  (* the serial number, the device type (empty when there is none), the record *)
  p_build : json -> result (json * string * list (string * json));
  p_summary : json -> string -> list (string * json) -> M unit;
  p_tail : string -> string;
  p_event : string -> string
}.

(** [serial_number = data["serial_number"]] and the assignments. *)
Definition build_from (rows : list (string * rhs)) (data : json)
  : result (json * string * list (string * json)) :=
  rbind (Py.getkey data "serial_number") (fun serial_number =>
  rbind (assign data rows []) (fun rec => OK (serial_number, "", rec))).

(** The same for a device status, whose device type comes first. *)
Definition build_device_status (data : json)
  : result (json * string * list (string * json)) :=
  rbind (Py.getkey data "serial_number") (fun serial_number =>
  rbind (device_type_of serial_number) (fun device_type =>
  rbind (assign data (device_status_rows device_type) []) (fun rec =>
  OK (serial_number, device_type, rec)))).

Section Shape.

Variable args : Args.
Variable world : World.

Definition run (p : parts) (data : json) : M (option json) :=
  if excluded args (p_name p) then ret None else
  if off_limit args (p_name p) then ret None else
  when (raw args) (print_raw args data) ;;
  built <- lift (p_build p data) ;;
  let '(serial_number, device_type, rec) := built in
  when (decoded args) (p_summary p serial_number device_type rec) ;;
  topic <- topic_of args serial_number (p_tail p device_type) ;;
  when (mqtt args) (mqtt_publish args world (MQTT_HOST args) topic (JDict rec)) ;;
  when (influxdb args) (influxdb_publish args world (p_event p topic) (JDict rec)) ;;
  ret (Some data).

(** What a debug routine does. *)
Definition run_debug (name : string) (data : json) : M (option json) :=
  if excluded args name then ret None else
  if off_limit args name then ret None else
  when (raw args) (print_raw args data) ;;
  ret None.

Definition evt_precip_parts : parts :=
  {| p_name := "evt_precip";
     p_build := build_from evt_precip_rows;
     p_summary := fun _ _ evt_precip =>
       obs_date <- local_date world evt_precip ;;
       say [PText "evt_precip     => "] ;;
       say [PText " ts  = "; PDate obs_date] ;;
       newline_;
     p_tail := fun _ => "/evt/precip";
     p_event := fun topic => topic |}.

Definition evt_strike_parts : parts :=
  {| p_name := "evt_strike";
     p_build := build_from evt_strike_rows;
     p_summary := fun _ _ evt_strike =>
       obs_date <- local_date world evt_strike ;;
       say [PText "evt_strike     => "] ;;
       say [PText " ts  = "; PDate obs_date] ;;
       say_fields evt_strike
         [ (" distance  = ", "distance"); (" energy  = ", "energy") ] ;;
       newline_;
     p_tail := fun _ => "/evt/strike";
     p_event := fun topic => topic |}.

Definition rapid_wind_parts : parts :=
  {| p_name := "rapid_wind";
     p_build := build_from rapid_wind_rows;
     p_summary := fun _ _ rapid_wind =>
       obs_date <- local_date world rapid_wind ;;
       say [PText "rapid_wind     => "] ;;
       say [PText " ts  = "; PDate obs_date] ;;
       say_fields rapid_wind [ (" mps = ", "speed"); (" dir = ", "direction") ] ;;
       newline_;
     p_tail := fun _ => "/rapid_wind";
     p_event := fun topic => topic |}.

Definition obs_air_parts : parts :=
  {| p_name := "obs_air";
     p_build := build_from obs_air_rows;
     p_summary := fun serial_number _ obs_air =>
       obs_date <- local_date world obs_air ;;
       say [PText "obs_air        => "] ;;
       say [PText " serial_number  = "; PStr serial_number] ;;
       say [PText " ts  = "; PDate obs_date] ;;
       say_fields obs_air
         [ (" station_pressure (MB) = ", "station_pressure");
           (" temperature (C) = ", "temperature");
           (" relative_humidity (%)= ", "relative_humidity");
           (" lightning_strikes = ", "lightning_strike_count");
           (" lightning_avg_km  = ", "lightning_strike_avg_distance") ] ;;
       newline_;
     p_tail := fun _ => "/obs_air";
     p_event := fun topic => topic |}.

Definition obs_st_parts : parts :=
  {| p_name := "obs_st";
     p_build := build_from obs_st_rows;
     p_summary := fun serial_number _ obs_st =>
       obs_date <- local_date world obs_st ;;
       say [PText "obs_st        => "] ;;
       say [PText " serial_number  = "; PStr serial_number] ;;
       say [PText " timestamp  = "; PDate obs_date] ;;
       say_fields obs_st
         [ (" wind_lull  = ", "wind_lull");
           (" wind_avg  = ", "wind_avg");
           (" wind_gust  = ", "wind_gust");
           (" wind_direction  = ", "wind_direction");
           (" wind_sample_interval  = ", "wind_sample_interval");
           (" station_pressure  = ", "station_pressure");
           (" temperature  = ", "temperature");
           (" relative_humidity  = ", "relative_humidity");
           (" illuminance  = ", "illuminance");
           (" uv  = ", "uv");
           (" solar_radiation  = ", "solar_radiation");
           (" rain_accumulated  = ", "rain_accumulated");
           (" precipitation_type  = ", "precipitation_type");
           (" lightning_strike_avg_distance  = ", "lightning_strike_avg_distance");
           (" lightning_strike_count  = ", "lightning_strike_count");
           (" battery = ", "battery");
           (" report_interval = ", "report_interval");
           (" firmware_revision = ", "firmware_revision") ] ;;
       newline_;
     p_tail := fun _ => "/obs_st";
     p_event := fun topic => topic |}.

Definition obs_sky_parts : parts :=
  {| p_name := "obs_sky";
     p_build := build_from obs_sky_rows;
     p_summary := fun serial_number _ obs_sky =>
       obs_date <- local_date world obs_sky ;;
       say [PText "obs_sky        => "] ;;
       say [PText " serial_number  = "; PStr serial_number] ;;
       say [PText " timestamp  = "; PDate obs_date] ;;
       say_fields obs_sky
         [ (" illuminance (lux) = ", "illuminance");
           (" uv  = ", "uv");
           (" rain_accumulated (mm) = ", "rain_accumulated");
           (" wind_lull (m/s)= ", "wind_lull");
           (" wind_avg (m/s) = ", "wind_avg");
           (" wind_gust (m/s) = ", "wind_gust");
           (" battery (volts) = ", "battery");
           (" report_interval (mins) = ", "report_interval");
           (" solar_radiation (W/m^2)= ", "solar_radiation");
           (" local day rain accumulated  = ", "local_rain_day_accumulation") ] ;;
       p <- lift (Py.getkey (JDict obs_sky) "precipitation_type") ;;
       i <- lift (Py.int p) ;;
       name <- lift (Py.list_index precip_type i) ;;
       say [PText " precipitation type  = "; PText name] ;;
       say_fields obs_sky
         [ (" wind_direction (deg) = ", "wind_direction");
           (" wind_sample_interval (secs) = ", "wind_sample_interval") ] ;;
       newline_;
     p_tail := fun _ => "/obs_sky";
     p_event := fun topic => topic |}.

Definition device_status_parts : parts :=
  {| p_name := "device_status";
     p_build := build_device_status;
     p_summary := fun serial_number device_type device_status =>
       obs_date <- local_date world device_status ;;
       obs_uptime <- uptime_of world device_status ;;
       say [PText "device_status  => "] ;;
       say [PText " serial_number  = "; PStr serial_number] ;;
       say [PText " device_type = "; PText device_type] ;;
       say [PText " ts  = "; PDate obs_date] ;;
       say [PText " uptime  = "; PDelta obs_uptime] ;;
       say_fields device_status
         [ (" voltage  = ", "voltage");
           (" firmware_revision  = ", "firmware_revision");
           (" rssi  = ", "rssi");
           (" hub_rssi  = ", "hub_rssi") ] ;;
       ss <- lift (Py.getkey (JDict device_status) "sensor_status") ;;
       descr <- lift (decode_sensor_status ss) ;;
       say [PText " sensor_status  = "; PText descr] ;;
       dbg <- lift (Py.getkey (JDict device_status) "debug") ;;
       say [PText " debug  = ";
            PText (if str_is_1 dbg then "enabled" else "disabled")] ;;
       newline_;
     p_tail := fun device_type => "/status/" ++ device_type;
     p_event := fun _ => "device_status" |}.

Definition hub_status_parts : parts :=
  {| p_name := "hub_status";
     p_build := build_from hub_status_rows;
     p_summary := fun _ _ hub_status =>
       obs_date <- local_date world hub_status ;;
       obs_uptime <- uptime_of world hub_status ;;
       say [PText "hub_status     => "] ;;
       say [PText " ts  = "; PDate obs_date] ;;
       say_fields hub_status [ (" firmware_revision  = ", "firmware_revision") ] ;;
       say [PText " uptime  = "; PDelta obs_uptime] ;;
       say_fields hub_status [ (" rssi  = ", "rssi") ] ;;
       newline_;
     p_tail := fun _ => "/status_hub";
     p_event := fun topic => topic |}.

Lemma bind_ext {A B} (m : M A) (k k' : A -> M B) :
  (forall a, k a = k' a) -> bind m k = bind m k'.
Proof. intros H; unfold bind; destruct (snd m); [now rewrite H | reflexivity]. Qed.

Ltac same_run :=
  unfold run, evt_precip_parts, evt_strike_parts, rapid_wind_parts,
    obs_air_parts, obs_st_parts, obs_sky_parts, device_status_parts,
    hub_status_parts;
  cbn [p_name p_build p_summary p_tail p_event];
  unfold build_from, build_device_status;
  destruct (excluded args _); [reflexivity|];
  destruct (off_limit args _); [reflexivity|];
  apply bind_ext; intros _;
  destruct (Py.getkey _ "serial_number") as [sn|e]; cbn [rbind];
  [|reflexivity];
  rewrite bind_lift_OK;
  try (destruct (device_type_of sn) as [dt|e]; cbn [rbind]; [|reflexivity];
       rewrite bind_lift_OK);
  destruct (assign _ _ _) as [rec|e]; cbn [rbind]; [|reflexivity];
  rewrite !bind_lift_OK; reflexivity.

Lemma process_evt_precip_run (data : json) :
  process_evt_precip args world data = run evt_precip_parts data.
Proof. unfold process_evt_precip; same_run. Qed.

Lemma process_evt_strike_run (data : json) :
  process_evt_strike args world data = run evt_strike_parts data.
Proof. unfold process_evt_strike; same_run. Qed.

Lemma process_rapid_wind_run (data : json) :
  process_rapid_wind args world data = run rapid_wind_parts data.
Proof. unfold process_rapid_wind; same_run. Qed.

Lemma process_obs_air_run (data : json) :
  process_obs_air args world data = run obs_air_parts data.
Proof. unfold process_obs_air; same_run. Qed.

Lemma process_obs_st_run (data : json) :
  process_obs_st args world data = run obs_st_parts data.
Proof. unfold process_obs_st; same_run. Qed.

Lemma process_obs_sky_run (data : json) :
  process_obs_sky args world data = run obs_sky_parts data.
Proof. unfold process_obs_sky; same_run. Qed.

Lemma process_device_status_run (data : json) :
  process_device_status args world data = run device_status_parts data.
Proof. unfold process_device_status; same_run. Qed.

Lemma process_hub_status_run (data : json) :
  process_hub_status args world data = run hub_status_parts data.
Proof. unfold process_hub_status; same_run. Qed.

End Shape.

(** ** Effects that are not prints *)

Definition is_print_b (e : effect) : bool :=
  match e with
  | Print _ _ => true
  | _ => false
  end.

(** The calls a trace makes to the broker, the database and syslog. *)
Definition sinks (tr : list effect) : list effect :=
  filter (fun e => negb (is_print_b e)) tr.

Lemma sinks_app (a b : list effect) : sinks (a ++ b) = (sinks a ++ sinks b)%list.
Proof. apply filter_app. Qed.

Lemma sinks_prints (tr : list effect) : Forall is_print tr -> sinks tr = [].
Proof.
  induction 1 as [|e tr He _ IH]; [reflexivity|].
  destruct e; cbn in He |- *; solve [exact IH | contradiction].
Qed.

Lemma sinks_in (e : effect) (tr : list effect) :
  In e tr -> is_print_b e = false -> In e (sinks tr).
Proof. intros H P; apply filter_In; split; [exact H | now rewrite P]. Qed.

Lemma in_sinks (e : effect) (tr : list effect) :
  In e (sinks tr) -> In e tr /\ is_print_b e = false.
Proof.
  intros H; apply filter_In in H; destruct H as [H P]; split; [exact H|].
  now destruct (is_print_b e).
Qed.

Section Printing.

Variable world : World.

Lemma say_fields_prints (rec : list (string * json)) (rows : list (string * string)) :
  all_effects is_print (say_fields rec rows).
Proof.
  induction rows as [|[label key] rows IH]; cbn [say_fields];
    [apply all_ret|].
  apply all_bind; [apply all_lift | intros v _].
  apply all_bind; [apply all_emit; exact I | intros _ _; exact IH].
Qed.

Lemma local_date_prints (rec : list (string * json)) :
  all_effects is_print (local_date world rec).
Proof.
  unfold local_date.
  apply all_bind; [apply all_lift | intros ts _].
  apply all_bind; [apply all_lift | intros t _].
  destruct (localtime_ok world t); [apply all_ret | apply all_throw].
Qed.

Lemma uptime_of_prints (rec : list (string * json)) :
  all_effects is_print (uptime_of world rec).
Proof.
  unfold uptime_of.
  apply all_bind; [apply all_lift | intros up _].
  apply all_bind; [apply all_lift | intros secs _].
  destruct (timedelta_ok world secs); [apply all_ret | apply all_throw].
Qed.

End Printing.

(** The decoding routine of a type name. *)
Definition parts_of (world : World) (name : string) : option parts :=
  if (name =? "evt_precip")%string then Some (evt_precip_parts world)
  else if (name =? "evt_strike")%string then Some (evt_strike_parts world)
  else if (name =? "rapid_wind")%string then Some (rapid_wind_parts world)
  else if (name =? "obs_air")%string then Some (obs_air_parts world)
  else if (name =? "obs_sky")%string then Some (obs_sky_parts world)
  else if (name =? "obs_st")%string then Some (obs_st_parts world)
  else if (name =? "device_status")%string then Some (device_status_parts world)
  else if (name =? "hub_status")%string then Some (hub_status_parts world)
  else None.

(** The type names that have a record. *)
Definition record_names : list string :=
  [ "evt_precip"; "evt_strike"; "rapid_wind"; "obs_air"; "obs_sky"; "obs_st";
    "device_status"; "hub_status" ].

Ltac each_parts H :=
  unfold parts_of in H;
  repeat match type of H with
         | (if (?n =? ?s)%string then _ else _) = _ =>
             destruct (String.eqb_spec n s) as [->|_];
             [injection H as <-|]
         end;
  [.. | discriminate H].

Lemma parts_of_name (world : World) (name : string) (p : parts) :
  parts_of world name = Some p -> p_name p = name.
Proof. intros H; each_parts H; reflexivity. Qed.

Lemma parts_of_record_names (world : World) (name : string) :
  In name record_names <-> exists p, parts_of world name = Some p.
Proof.
  split.
  - unfold record_names; cbn [In]; intros H.
    repeat (destruct H as [<-|H]; [eexists; reflexivity|]); contradiction.
  - intros [p H]; each_parts H; unfold record_names; cbn [In]; tauto.
Qed.

(** A decoded summary only prints. *)
Lemma summary_prints (world : World) (name : string) (p : parts)
  (serial_number : json) (device_type : string) (rec : list (string * json)) :
  parts_of world name = Some p ->
  Forall is_print (fst (p_summary p serial_number device_type rec)).
Proof.
  intros H; each_parts H; cbn [p_summary evt_precip_parts evt_strike_parts
    rapid_wind_parts obs_air_parts obs_st_parts obs_sky_parts
    device_status_parts hub_status_parts];
    change (Forall is_print (fst ?m)) with (all_effects is_print m);
    repeat first
      [ apply all_ret | apply all_lift
      | apply say_fields_prints | apply local_date_prints
      | apply uptime_of_prints
      | apply all_emit; exact I
      | apply all_bind; [| intros ? ?] ].
Qed.

(** ** What one envelope sends to the sinks *)

Section Anatomy.

Variable args : Args.
Variable world : World.

(** The credentials [mqtt_publish] passes on: none without a user name,
    whatever the password option says. *)
Definition auth_of : option (string * option string) :=
  match mqtt_user args with
  | Some u =>
      if (u =? "")%string then None
      else if Py.truthy (mqtt_pass args) then Some (u, mqtt_pass args)
           else Some (u, None)
  | None => None
  end.

Definition publish_call (topic : string) (rec : list (string * json)) : effect :=
  MqttSingle topic (JDict rec) (MQTT_HOST args) MQTT_CLIENT_ID MQTT_PORT auth_of.

Definition write_call (event : string) (ts : json) (rec : list (string * json))
  : effect :=
  InfluxWritePoints (influxdb_host args) (influxdb_port args)
    (influxdb_user args) (influxdb_pass args) (influxdb_db args)
    [point event ts rec] "s".

(** The publish call of a record, if one is made. *)
Definition published (topic : string) (rec : list (string * json))
  : list effect :=
  if mqtt args && negb (no_pub args) then [publish_call topic rec] else [].

(** The publish call is made and raises. *)
Definition broker_fails : bool :=
  mqtt args && negb (no_pub args) && negb (mqtt_single_ok world).

(** The write call of a record, if one is made. *)
Definition written (event : string) (rec : list (string * json)) : list effect :=
  if influxdb args && influx_client_ok world
  then match Py.lookup "timestamp" rec with
       | Some ts => [write_call event ts rec]
       | None => []
       end
  else [].

Lemma print_raw_prints (data : json) : Forall is_print (fst (print_raw args data)).
Proof.
  unfold print_raw; destruct (raw args), (indent args); repeat constructor.
Qed.

Lemma topic_of_silent (serial_number : json) (tail : string) :
  fst (topic_of args serial_number tail) = [].
Proof.
  unfold topic_of; destruct (mqtt_multisensor args); [|reflexivity].
  now destruct serial_number.
Qed.

Lemma when_mqtt_sinks (topic : string) (rec : list (string * json)) :
  sinks (fst (when (mqtt args)
                (mqtt_publish args world (MQTT_HOST args) topic (JDict rec))))
  = published topic rec.
Proof.
  unfold published, mqtt_publish, publish_call, auth_of.
  destruct (mqtt args), (no_pub args), (mqtt_single_ok world); reflexivity.
Qed.

Lemma when_mqtt_result (topic : string) (rec : list (string * json)) :
  snd (when (mqtt args)
         (mqtt_publish args world (MQTT_HOST args) topic (JDict rec)))
  = if broker_fails then Raise SinkError else OK tt.
Proof.
  unfold broker_fails, mqtt_publish.
  destruct (mqtt args), (no_pub args), (mqtt_single_ok world); reflexivity.
Qed.

Lemma when_influx_sinks (event : string) (rec : list (string * json)) :
  sinks (fst (when (influxdb args)
                (influxdb_publish args world event (JDict rec))))
  = written event rec.
Proof.
  unfold written, influxdb_publish, write_call, point, influx_failed.
  cbn [Py.getkey].
  destruct (influxdb args), (influx_client_ok world); try reflexivity.
  cbn [when andb negb].
  destruct (Py.lookup "timestamp" rec); [|reflexivity].
  destruct (verbose args), (influx_write_ok world); reflexivity.
Qed.

Lemma when_influx_result (event : string) (rec : list (string * json)) :
  snd (when (influxdb args) (influxdb_publish args world event (JDict rec)))
  = if influxdb args && negb (influx_client_ok world)
    then Raise UnboundLocalError else OK tt.
Proof.
  unfold influxdb_publish, influx_failed; cbn [Py.getkey].
  destruct (influxdb args), (influx_client_ok world); try reflexivity.
  cbn [when andb negb].
  destruct (Py.lookup "timestamp" rec); [|reflexivity].
  destruct (verbose args), (influx_write_ok world); reflexivity.
Qed.

(** Where a run gets to: it is filtered, or stops at the record, at the
    summary or at the topic, or reaches the sinks with a topic and a
    record. *)
Inductive course : Type :=
| Filtered
| Stopped (e : exn)
| Reached (serial_number : json) (device_type : string)
    (rec : list (string * json)) (topic : string).

Definition course_of (p : parts) (data : json) : course :=
  if excluded args (p_name p) || off_limit args (p_name p) then Filtered
  else match p_build p data with
       | Raise e => Stopped e
       | OK (serial_number, device_type, rec) =>
           match snd (when (decoded args)
                        (p_summary p serial_number device_type rec)) with
           | Raise e => Stopped e
           | OK _ =>
               match snd (topic_of args serial_number (p_tail p device_type)) with
               | Raise e => Stopped e
               | OK topic => Reached serial_number device_type rec topic
               end
           end
       end.

(** The sink calls and the result of a run, by its course. *)
Lemma run_by_course (p : parts) (data : json) :
  (forall sn dt rec, Forall is_print (fst (p_summary p sn dt rec))) ->
  match course_of p data with
  | Filtered => run args world p data = ([], OK None)
  | Stopped e =>
      sinks (fst (run args world p data)) = []
      /\ snd (run args world p data) = Raise e
  | Reached _ _ rec topic =>
      sinks (fst (run args world p data))
      = (published topic rec
         ++ if broker_fails then [] else written (p_event p topic) rec)%list
      /\ snd (run args world p data)
         = if broker_fails then Raise SinkError
           else if influxdb args && negb (influx_client_ok world)
                then Raise UnboundLocalError
                else OK (Some data)
  end.
Proof.
  intros Hq; unfold course_of, run.
  destruct (excluded args (p_name p)); [reflexivity|].
  destruct (off_limit args (p_name p)); [reflexivity|]; cbn [orb].
  rewrite (when_raw_print_raw args), fst_bind, snd_bind, print_raw_returns.
  rewrite sinks_app, (sinks_prints _ (print_raw_prints data)); cbn [app].
  destruct (p_build p data) as [[[sn dt] rec]|e]; [|split; reflexivity].
  rewrite bind_lift_OK, fst_bind, snd_bind.
  assert (Hs : Forall is_print
                 (fst (when (decoded args) (p_summary p sn dt rec))))
    by (destruct (decoded args); [apply Hq | constructor]).
  destruct (snd (when (decoded args) (p_summary p sn dt rec)));
    [|split; [now apply sinks_prints | reflexivity]].
  rewrite sinks_app, (sinks_prints _ Hs), fst_bind, snd_bind, topic_of_silent.
  cbn [app].
  destruct (snd (topic_of args sn (p_tail p dt))) as [topic|e];
    [|split; reflexivity].
  rewrite fst_bind, snd_bind, when_mqtt_result.
  destruct broker_fails; [split; [|reflexivity]|].
  - now rewrite when_mqtt_sinks, app_nil_r.
  - rewrite sinks_app, when_mqtt_sinks, fst_bind, snd_bind, when_influx_result.
    destruct (influxdb args && negb (influx_client_ok world));
      cbn [fst snd ret]; rewrite ?app_nil_r, when_influx_sinks; split; reflexivity.
Qed.

End Anatomy.

(** The table a record of a type name is built from, the end of its
    topic, and the name it is written under. *)
Definition rows_of (name device_type : string) : list (string * rhs) :=
  if (name =? "evt_precip")%string then evt_precip_rows
  else if (name =? "evt_strike")%string then evt_strike_rows
  else if (name =? "rapid_wind")%string then rapid_wind_rows
  else if (name =? "obs_air")%string then obs_air_rows
  else if (name =? "obs_sky")%string then obs_sky_rows
  else if (name =? "obs_st")%string then obs_st_rows
  else if (name =? "device_status")%string then device_status_rows device_type
  else if (name =? "hub_status")%string then hub_status_rows
  else [].

Fixpoint assoc (k : string) (l : list (string * string)) : option string :=
  match l with
  | [] => None
  | (k', v) :: l' => if (k' =? k)%string then Some v else assoc k l'
  end.

Definition tail_of (name device_type : string) : string :=
  if (name =? "device_status")%string then "/status/" ++ device_type
  else match assoc name kind_topics with
       | Some tail => tail
       | None => ""
       end.

Definition event_of (name topic : string) : string :=
  if (name =? "device_status")%string then "device_status" else topic.

(** What building the record of a type name amounts to. *)
Definition built (name : string) (data serial_number : json)
  (device_type : string) (rec : list (string * json)) : Prop :=
  Py.getkey data "serial_number" = OK serial_number
  /\ (if (name =? "device_status")%string
      then device_type_of serial_number = OK device_type
      else device_type = "")
  /\ assign data (rows_of name device_type) [] = OK rec.

Lemma build_from_built (rows : list (string * rhs)) (data sn : json)
  (dt : string) (rec : list (string * json)) :
  build_from rows data = OK (sn, dt, rec)
  <-> Py.getkey data "serial_number" = OK sn
      /\ dt = "" /\ assign data rows [] = OK rec.
Proof.
  unfold build_from.
  destruct (Py.getkey data "serial_number") as [s|e]; cbn [rbind];
    [|split; [discriminate | intros [D _]; discriminate]].
  destruct (assign data rows []) as [r|e]; cbn [rbind].
  - split; [intros [= <- <- <-]; auto | intros [[= <-] [-> [= <-]]]; auto].
  - split; [discriminate | intros [_ [_ D]]; discriminate].
Qed.

Lemma build_device_status_built (data sn : json) (dt : string)
  (rec : list (string * json)) :
  build_device_status data = OK (sn, dt, rec)
  <-> Py.getkey data "serial_number" = OK sn
      /\ device_type_of sn = OK dt
      /\ assign data (device_status_rows dt) [] = OK rec.
Proof.
  unfold build_device_status.
  destruct (Py.getkey data "serial_number") as [s|e]; cbn [rbind];
    [|split; [discriminate | intros [D _]; discriminate]].
  destruct (device_type_of s) as [d|e] eqn:T; cbn [rbind].
  - destruct (assign data (device_status_rows d) []) as [r|e] eqn:A;
      cbn [rbind].
    + split; [intros [= <- <- <-]; auto|].
      intros [[= <-] [T' A']]; rewrite T in T'; injection T' as <-.
      rewrite A in A'; now injection A' as <-.
    + split; [discriminate|].
      intros [[= <-] [T' A']]; rewrite T in T'; injection T' as <-.
      rewrite A in A'; discriminate.
  - split; [discriminate|].
    intros [[= <-] [T' _]]; rewrite T in T'; discriminate.
Qed.

Lemma build_built (world : World) (name : string) (p : parts) (data : json)
  (sn : json) (dt : string) (rec : list (string * json)) :
  parts_of world name = Some p ->
  p_build p data = OK (sn, dt, rec) <-> built name data sn dt rec.
Proof.
  intros H; unfold built; each_parts H;
    cbn [p_build evt_precip_parts evt_strike_parts rapid_wind_parts
           obs_air_parts obs_st_parts obs_sky_parts device_status_parts
           hub_status_parts String.eqb Ascii.eqb Bool.eqb rows_of];
    first [apply build_from_built | apply build_device_status_built].
Qed.

Lemma parts_tail_event (world : World) (name : string) (p : parts) :
  parts_of world name = Some p ->
  (forall dt, p_tail p dt = tail_of name dt)
  /\ (forall topic, p_event p topic = event_of name topic).
Proof. intros H; each_parts H; split; reflexivity. Qed.

Section Envelope.

Variable args : Args.
Variable world : World.

(** [report_it] drops what the routine returns. *)
Definition lower {A} (r : result A) : result unit :=
  match r with
  | OK _ => OK tt
  | Raise e => Raise e
  end.

(** The log line of an unknown type, when [--syslog] is given. *)
Definition unknown_logged (data : json) : list effect :=
  if syslog args
  then [Syslog LOG_INFO [PText "[wf-udp-listener]: ";
                         PText "unknown data type in "; PJson data false]]
  else [].

Lemma report_it_record (name : string) (p : parts) (data : json) :
  Py.getkey data "type" = OK (JStr name) ->
  parts_of world name = Some p ->
  report_it args world data
  = (fst (run args world p data), lower (snd (run args world p data))).
Proof.
  intros Ht H; each_parts H;
    rewrite (report_it_dispatched args world data _ _ Ht eq_refl);
    [> rewrite process_evt_precip_run | rewrite process_evt_strike_run
     | rewrite process_rapid_wind_run | rewrite process_obs_air_run
     | rewrite process_obs_sky_run | rewrite process_obs_st_run
     | rewrite process_device_status_run | rewrite process_hub_status_run ];
    reflexivity.
Qed.

Lemma run_debug_prints (name : string) (data : json) :
  Forall is_print (fst (run_debug args name data))
  /\ snd (run_debug args name data) = OK None.
Proof.
  unfold run_debug.
  destruct (excluded args name); [split; [constructor | reflexivity]|].
  destruct (off_limit args name); [split; [constructor | reflexivity]|].
  rewrite when_raw_print_raw, fst_bind, snd_bind, print_raw_returns.
  cbn [ret fst snd]; rewrite app_nil_r; split; [|reflexivity].
  apply print_raw_prints.
Qed.

Lemma report_it_debug (name : string) (data : json) :
  Py.getkey data "type" = OK (JStr name) ->
  In name debug_names ->
  report_it args world data = (fst (run_debug args name data), OK tt).
Proof.
  intros Ht H; unfold debug_names in H; cbn [In] in H.
  destruct H as [<-|[<-|[<-|[]]]];
    rewrite (report_it_dispatched args world data _ _ Ht eq_refl);
    [ change (process_wind_debug args data) with (run_debug args "wind_debug" data)
    | change (process_light_debug args data) with (run_debug args "light_debug" data)
    | change (process_rain_debug args data) with (run_debug args "rain_debug" data) ];
    now rewrite (proj2 (run_debug_prints _ data)).
Qed.

(** The type names are all that [report_it] dispatches on. *)
Lemma dispatch_none (t : json) :
  dispatch args world t = None
  <-> forall name, In name type_names -> t <> JStr name.
Proof.
  split.
  - intros D name Hn ->; unfold type_names in Hn; cbn [In] in Hn.
    repeat (destruct Hn as [<-|Hn]; [discriminate D|]); contradiction.
  - intros H; unfold dispatch, eq_str; destruct t; try reflexivity.
    repeat match goal with
           | |- context [String.eqb s ?n] =>
               destruct (String.eqb_spec s n) as [->|_];
               [exfalso; eapply H; [|reflexivity]; unfold type_names;
                cbn [In]; tauto|]
           end.
    reflexivity.
Qed.

(** The three ways [report_it] can go once the type is read. *)
Lemma report_it_ways (data t : json) :
  Py.getkey data "type" = OK t ->
  (exists name p, t = JStr name /\ parts_of world name = Some p)
  \/ (exists name, t = JStr name /\ In name debug_names)
  \/ dispatch args world t = None.
Proof.
  intros _; destruct t;
    try (right; right; reflexivity).
  unfold dispatch, eq_str, parts_of, debug_names.
  repeat match goal with
         | |- context [String.eqb s ?n] =>
             destruct (String.eqb_spec s n) as [->|_];
             [first [ left; do 2 eexists; split; reflexivity
                    | right; left; eexists; split;
                      [reflexivity | cbn [In]; tauto] ]|]
         end.
  right; right; reflexivity.
Qed.

(** The sink calls of an envelope: none, the log line of an unknown type,
    or what the run of its routine reaches. *)
Lemma report_it_sinks (data : json) :
  sinks (fst (report_it args world data)) = []
  \/ (exists t, Py.getkey data "type" = OK t
                /\ dispatch args world t = None
                /\ sinks (fst (report_it args world data)) = unknown_logged data)
  \/ (exists name p sn dt rec topic,
        Py.getkey data "type" = OK (JStr name)
        /\ parts_of world name = Some p
        /\ course_of args p data = Reached sn dt rec topic
        /\ sinks (fst (report_it args world data))
           = (published args topic rec
              ++ if broker_fails args world then []
                 else written args world (p_event p topic) rec)%list
        /\ snd (report_it args world data)
           = if broker_fails args world then Raise SinkError
             else if influxdb args && negb (influx_client_ok world)
                  then Raise UnboundLocalError
                  else OK tt).
Proof.
  destruct (Py.getkey data "type") as [t|e] eqn:Ht;
    [|left; unfold report_it; now rewrite Ht].
  destruct (report_it_ways data t Ht) as [[name [p [-> Hp]]]|[[name [-> Hd]]|Hn]].
  - rewrite (report_it_record name p data Ht Hp); cbn [fst snd].
    pose proof (run_by_course args world p data
                  (fun sn dt rec => summary_prints world name p sn dt rec Hp))
      as C.
    destruct (course_of args p data) as [|e|sn dt rec topic] eqn:Co.
    + left; now rewrite C.
    + left; apply C.
    + right; right; exists name, p, sn, dt, rec, topic.
      destruct C as [Cs Cr]; repeat split; try assumption.
      rewrite Cr; destruct (broker_fails args world); [reflexivity|].
      now destruct (influxdb args && negb (influx_client_ok world)).
  - left; rewrite (report_it_debug name data Ht Hd); cbn [fst].
    apply sinks_prints, run_debug_prints.
  - right; left; exists t; repeat split; try assumption.
    rewrite (unknown_type_reported args world data t Ht Hn).
    unfold unknown_logged; cbn [fst]; now destruct (syslog args).
Qed.

End Envelope.

(** ** Properties of the dispatch and of the sink calls *)

(** A broker that cannot be reached, the rest as in [all_up]. *)
Definition broker_down : World :=
  {| localtime_ok := localtime_ok all_up;
     timedelta_ok := timedelta_ok all_up;
     mqtt_single_ok := false;
     influx_client_ok := influx_client_ok all_up;
     influx_write_ok := influx_write_ok all_up |}.

Lemma Forall_by_sinks (P : effect -> Prop) (tr : list effect) :
  (forall line nl, P (Print line nl)) ->
  Forall P (sinks tr) -> Forall P tr.
Proof.
  intros Hp H; apply Forall_forall; intros e He.
  destruct (is_print_b e) eqn:B; [destruct e; try discriminate B; apply Hp|].
  rewrite Forall_forall in H; apply H; now apply sinks_in.
Qed.

Lemma course_reached (args : Args) (p : parts) (data sn : json) (dt : string)
  (rec : list (string * json)) (topic : string) :
  course_of args p data = Reached sn dt rec topic ->
  excluded args (p_name p) || off_limit args (p_name p) = false
  /\ p_build p data = OK (sn, dt, rec)
  /\ snd (when (decoded args) (p_summary p sn dt rec)) = OK tt
  /\ snd (topic_of args sn (p_tail p dt)) = OK topic.
Proof.
  unfold course_of.
  destruct (excluded args (p_name p) || off_limit args (p_name p));
    [discriminate|].
  destruct (p_build p data) as [[[s d] r]|e]; [|discriminate].
  destruct (snd (when (decoded args) (p_summary p s d r))) as [[]|e] eqn:S;
    [|discriminate].
  destruct (snd (topic_of args s (p_tail p d))) as [t|e] eqn:T; [|discriminate].
  intros [= <- <- <- <-]; repeat split; assumption.
Qed.

Section Calls.

Variable args : Args.
Variable world : World.

(** [report_it] reports a type it does not know and goes on: the line
    it prints holds the envelope, the line it logs (with [--syslog], at
    level INFO) its JSON text; nothing is published or written. *)
Theorem unknown_type_is_reported (data t : json) :
  Py.getkey data "type" = OK t ->
  (forall name, In name type_names -> t <> JStr name) ->
  report_it args world data
  = ((Print [PText "ERROR: unknown data type in"; PText " "; PStr data] true
      :: unknown_logged args data)%list,
     OK tt).
Proof.
  intros Ht Hn; apply (dispatch_none args world) in Hn.
  rewrite (unknown_type_reported args world data t Ht Hn).
  unfold unknown_logged; now destruct (syslog args).
Qed.

(** What an effect needs to have been asked for. *)
Definition licensed (e : effect) : Prop :=
  match e with
  | Print _ _ => True
  | Syslog lvl _ => syslog args = true /\ lvl = LOG_INFO
  | MqttSingle _ _ hostname client_id port auth =>
      mqtt args = true /\ no_pub args = false
      /\ hostname = MQTT_HOST args /\ client_id = "weatherflow"
      /\ port = 1883 /\ auth = auth_of args
  | InfluxWritePoints host port username password database points precision =>
      influxdb args = true
      /\ host = influxdb_host args /\ port = influxdb_port args
      /\ username = influxdb_user args /\ password = influxdb_pass args
      /\ database = influxdb_db args
      /\ List.length points = 1%nat /\ precision = "s"
  end.

(** Whatever the envelope, a publish call is made only with [--mqtt] and
    without [--no_pub], a write only with [--influxdb], a log line only
    with [--syslog]; the calls go to the configured broker and database,
    with client id "weatherflow" on port 1883, and with credentials only
    when a user name is given. *)
Theorem sink_calls_follow_options (data : json) :
  Forall licensed (fst (report_it args world data))
  /\ (Py.truthy (mqtt_user args) = false -> auth_of args = None).
Proof.
  split.
  - apply Forall_by_sinks; [intros; exact I|].
    destruct (report_it_sinks args world data)
      as [-> | [[t [_ [_ ->]]] | [name [p [sn [dt [rec [topic [_ [_ [_ [-> _]]]]]]]]]]]].
    + constructor.
    + unfold unknown_logged; destruct (syslog args) eqn:S;
        repeat constructor; assumption.
    + apply Forall_app; split.
      * unfold published; destruct (mqtt args && negb (no_pub args)) eqn:E;
          [|constructor].
        apply andb_true_iff in E; destruct E as [E1 E2].
        apply negb_true_iff in E2; repeat constructor; assumption.
      * destruct (broker_fails args world); [constructor|].
        unfold written.
        destruct (influxdb args && influx_client_ok world) eqn:E;
          [|constructor].
        apply andb_true_iff in E; destruct E as [E1 E2].
        destruct (Py.lookup "timestamp" rec); repeat constructor; assumption.
  - unfold auth_of, Py.truthy; destruct (mqtt_user args) as [u|];
      [|reflexivity].
    destruct (u =? "")%string; [reflexivity | discriminate].
Qed.

(** One envelope makes at most one publish call and then at most one
    write call, and both carry the same record: the one built from the
    envelope by the table of its type.  The write is skipped when the
    publish call raises. *)
Theorem one_record_to_both_sinks (data : json) :
  sinks (fst (report_it args world data)) = []
  \/ sinks (fst (report_it args world data)) = unknown_logged args data
  \/ exists name sn dt rec topic,
       Py.getkey data "type" = OK (JStr name)
       /\ In name record_names
       /\ built name data sn dt rec
       /\ snd (topic_of args sn (tail_of name dt)) = OK topic
       /\ sinks (fst (report_it args world data))
          = (published args topic rec
             ++ if broker_fails args world then []
                else written args world (event_of name topic) rec)%list.
Proof.
  destruct (report_it_sinks args world data)
    as [E | [[t [_ [_ E]]] | [name [p [sn [dt [rec [topic [Ht [Hp [Co [E _]]]]]]]]]]]];
    [now left | now right; left | right; right].
  exists name, sn, dt, rec, topic.
  destruct (course_reached _ _ _ _ _ _ _ Co) as [_ [Hb [_ Htop]]].
  destruct (parts_tail_event world name p Hp) as [Tl Ev].
  rewrite Tl in Htop; rewrite Ev in E.
  split; [exact Ht|].
  split; [apply (parts_of_record_names world); eauto|].
  split; [now apply (build_built world name p)|].
  split; assumption.
Qed.

(** When the broker cannot be reached, the exception of the publish call
    ends the routine: no envelope is written to the time series, whatever
    [--influxdb] says. *)
Theorem broker_failure_skips_write (data : json) :
  mqtt args = true ->
  no_pub args = false ->
  mqtt_single_ok world = false ->
  Forall (fun e => is_influx e = false) (fst (report_it args world data)).
Proof.
  intros Hm Hn Hb.
  assert (B : broker_fails args world = true)
    by (unfold broker_fails; now rewrite Hm, Hn, Hb).
  apply Forall_by_sinks; [reflexivity|].
  destruct (report_it_sinks args world data)
    as [-> | [[t [_ [_ ->]]] | [name [p [sn [dt [rec [topic [_ [_ [_ [-> _]]]]]]]]]]]].
  - constructor.
  - unfold unknown_logged; destruct (syslog args); repeat constructor.
  - rewrite B, app_nil_r; unfold published.
    destruct (mqtt args && negb (no_pub args)); repeat constructor.
Qed.

End Calls.

Lemma broker_failure_skips_write_example :
  Forall (fun e => is_influx e = false)
    (fst (report_it (options false false true true None None) broker_down
            rapid_wind_example)).
Proof.
  exact (broker_failure_skips_write
           (options false false true true None None) broker_down
           rapid_wind_example eq_refl eq_refl eq_refl).
Defined.

(** *** The time series client *)

(** C8: the write the claim describes is never made.  [influxdb_publish]
    imports [influxdb_client] and calls its [InfluxDBClient] with [host],
    [port], [username], [password] and [database], the way the older
    [influxdb] package takes them; the imported class refuses that call.
    So on the rapid wind example with [--influxdb] no point is written:
    the routine prints that it failed to connect and then, about to print
    a payload it has not built yet, raises [UnboundLocalError], which
    ends the handling of the envelope.  The same goes for every envelope
    and every choice of options: where no client is made, no point is
    written. *)
Theorem influx_write_is_never_made :
  report_it (options false false false true None None) all_up
    rapid_wind_example
  = ([Print [PText "Failed to connect to InfluxDB: "; PExn SinkError] true],
     Raise UnboundLocalError)
  /\ forall (args : Args) (world : World) (data : json),
       influx_client_ok world = false ->
       Forall (fun e => is_influx e = false) (fst (report_it args world data)).
Proof.
  split; [reflexivity|].
  intros args world data Hc.
  apply Forall_by_sinks; [reflexivity|].
  destruct (report_it_sinks args world data)
    as [-> | [[t [_ [_ ->]]] | [name [p [sn [dt [rec [topic [_ [_ [_ [-> _]]]]]]]]]]]].
  - constructor.
  - unfold unknown_logged; destruct (syslog args); repeat constructor.
  - apply Forall_app; split.
    + unfold published.
      destruct (mqtt args && negb (no_pub args)); repeat constructor.
    + destruct (broker_fails args world); [constructor|].
      unfold written; rewrite Hc, andb_false_r; constructor.
Qed.

Lemma unknown_type_is_reported_example :
  report_it (options true true true true None None) all_up
    (JDict [("type", JStr "obs_tempest")])
  = ([Print [PText "ERROR: unknown data type in"; PText " ";
             PStr (JDict [("type", JStr "obs_tempest")])] true],
     OK tt).
Proof.
  refine (unknown_type_is_reported
            (options true true true true None None) all_up
            (JDict [("type", JStr "obs_tempest")]) (JStr "obs_tempest")
            eq_refl _).
  intros name H; unfold type_names in H; cbn [In] in H.
  repeat (destruct H as [<-|H]; [discriminate|]); contradiction.
Defined.

(** ** Records and their tables *)

Lemma lookup_notin (k : string) (d : list (string * json)) :
  ~ In k (map fst d) -> Py.lookup k d = None.
Proof.
  induction d as [|[k' v] d IH]; cbn [Py.lookup map fst In]; [reflexivity|].
  intros H; destruct (String.eqb_spec k' k) as [->|_]; [tauto|].
  apply IH; tauto.
Qed.

Lemma lookup_app (k : string) (a b : list (string * json)) :
  Py.lookup k (a ++ b)
  = match Py.lookup k a with
    | Some v => Some v
    | None => Py.lookup k b
    end.
Proof.
  induction a as [|[k' v] a IH]; cbn [Py.lookup app]; [reflexivity|].
  now destruct (k' =? k)%string.
Qed.

Lemma setkey_new (k : string) (v : json) (d : list (string * json)) :
  ~ In k (map fst d) -> Py.setkey k v d = (d ++ [(k, v)])%list.
Proof.
  induction d as [|[k' v'] d IH]; cbn [Py.setkey map fst In app];
    [reflexivity|].
  intros H; destruct (String.eqb_spec k' k) as [->|_]; [tauto|].
  rewrite IH by tauto; reflexivity.
Qed.

(** The assignments of distinct keys leave a record that has the keys of
    the table after those it had, each with the value of its right-hand
    side, and the old keys unchanged. *)
Lemma assign_spec (data : json) (rows : list (string * rhs)) :
  forall rec0 rec,
    assign data rows rec0 = OK rec ->
    NoDup (map fst rows) ->
    (forall k, In k (map fst rows) -> ~ In k (map fst rec0)) ->
    map fst rec = (map fst rec0 ++ map fst rows)%list
    /\ (forall k r, In (k, r) rows ->
          exists v, eval_rhs data r = OK v /\ Py.lookup k rec = Some v)
    /\ (forall k, ~ In k (map fst rows) -> Py.lookup k rec = Py.lookup k rec0).
Proof.
  induction rows as [|[k0 r0] rows IH]; intros rec0 rec A N F.
  - cbn in A; injection A as <-; cbn [map app]; rewrite app_nil_r.
    split; [reflexivity | split; [intros k r [] | reflexivity]].
  - cbn [assign] in A; destruct (eval_rhs data r0) as [v0|e] eqn:E0;
      cbn [rbind] in A; [|discriminate].
    cbn [map fst] in N, F; inversion N as [|? ? N0 N']; subst.
    rewrite setkey_new in A by (apply F; now left).
    destruct (IH _ _ A N') as [Hk [Hv Ho]].
    { intros k Hin; rewrite map_app, in_app_iff; cbn [map fst In].
      intros [H|[<-|[]]]; [apply (F k); [now right | exact H] | tauto]. }
    assert (L0 : Py.lookup k0 rec = Some v0).
    { rewrite (Ho k0 N0), lookup_app, (lookup_notin k0 rec0)
        by (apply F; now left).
      cbn [Py.lookup]; now rewrite String.eqb_refl. }
    split; [|split].
    + rewrite Hk, map_app, <- app_assoc; reflexivity.
    + intros k r [[= <- <-]|Hin]; [eauto | now apply Hv].
    + intros k Hn; cbn [map fst In] in Hn.
      rewrite (Ho k) by tauto.
      rewrite lookup_app; destruct (Py.lookup k rec0); [reflexivity|].
      cbn [Py.lookup]; destruct (String.eqb_spec k0 k) as [->|_];
        [tauto | reflexivity].
Qed.


Fixpoint distinct (l : list string) : bool :=
  match l with
  | [] => true
  | x :: l' => negb (existsb (String.eqb x) l') && distinct l'
  end.

Lemma distinct_NoDup (l : list string) : distinct l = true -> NoDup l.
Proof.
  induction l as [|x l IH]; cbn [distinct]; [constructor|].
  intros H; apply andb_true_iff in H; destruct H as [Hx Hl].
  constructor; [|now apply IH].
  intros Hin; apply negb_true_iff in Hx.
  assert (T : existsb (String.eqb x) l = true)
    by (apply existsb_exists; exists x; split;
        [exact Hin | apply String.eqb_refl]).
  congruence.
Qed.

Lemma rows_of_distinct (name device_type : string) :
  NoDup (map fst (rows_of name device_type)).
Proof.
  unfold rows_of.
  repeat match goal with
         | |- context [String.eqb name ?n] =>
             destruct (String.eqb_spec name n) as [->|_];
             [apply distinct_NoDup; reflexivity|]
         end.
  constructor.
Qed.



(** ** Runs that stop before the sinks *)

(** The same command line without [--decoded]. *)
Definition without_decoded (a : Args) : Args :=
  {| raw := raw a; decoded := false; syslog := syslog a;
     limit := limit a; exclude := exclude a; indent := indent a;
     mqtt := mqtt a; mqtt_multisensor := mqtt_multisensor a;
     no_pub := no_pub a; mqtt_broker := mqtt_broker a;
     mqtt_topic := mqtt_topic a; address := address a;
     influxdb := influxdb a; influxdb_host := influxdb_host a;
     influxdb_port := influxdb_port a; influxdb_user := influxdb_user a;
     influxdb_pass := influxdb_pass a; influxdb_db := influxdb_db a;
     mqtt_user := mqtt_user a; mqtt_pass := mqtt_pass a;
     verbose := verbose a |}.

(** A routine raises. *)
Definition raises {A} (m : M A) : Prop := exists e, snd m = Raise e.

Lemma raises_bind {A B} (m : M A) (k : A -> M B) :
  (forall a, snd m = OK a -> raises (k a)) -> raises (bind m k).
Proof.
  intros H; unfold raises; rewrite snd_bind.
  destruct (snd m) as [a|e]; [now apply H | eauto].
Qed.

Lemma list_index_out_of_range (i : Z) :
  i < -3 \/ 2 < i -> Py.list_index precip_type i = Raise IndexError.
Proof.
  intros H; unfold Py.list_index, precip_type.
  change (Z.of_nat (List.length ["none"; "rain"; "hail"])) with 3.
  cbv zeta; destruct (i <? 0) eqn:N.
  - apply Z.ltb_lt in N.
    assert (L : (0 <=? i + 3) = false) by (apply Z.leb_gt; lia).
    now rewrite L.
  - apply Z.ltb_ge in N.
    assert (L : (i <? 3) = false) by (apply Z.ltb_ge; lia).
    now rewrite L, andb_false_r.
Qed.

Section Stops.

Variable args : Args.
Variable world : World.

Lemma course_without_decoded (p : parts) (data sn : json) (dt : string)
  (rec : list (string * json)) (topic : string) :
  course_of args p data = Reached sn dt rec topic ->
  course_of (without_decoded args) p data = Reached sn dt rec topic.
Proof.
  intros Co; destruct (course_reached _ _ _ _ _ _ _ Co) as [G [B [_ T]]].
  unfold course_of.
  change (excluded (without_decoded args) (p_name p))
    with (excluded args (p_name p)).
  change (off_limit (without_decoded args) (p_name p))
    with (off_limit args (p_name p)).
  rewrite G, B; cbn [decoded without_decoded when ret snd].
  change (topic_of (without_decoded args) sn (p_tail p dt))
    with (topic_of args sn (p_tail p dt)).
  now rewrite T.
Qed.

(** [--decoded] never changes what is published, written or logged for
    an envelope, except that it may suppress all of it: the summary is
    printed before the sinks are called, and an envelope whose summary
    cannot be formatted is dropped there. *)
Theorem decoded_only_suppresses (data : json) :
  sinks (fst (report_it args world data)) = []
  \/ sinks (fst (report_it args world data))
     = sinks (fst (report_it (without_decoded args) world data)).
Proof.
  destruct (report_it_sinks args world data)
    as [E | [[t [Ht [Hn E]]] | [name [p [sn [dt [rec [topic [Ht [Hp [Co [E _]]]]]]]]]]]];
    [now left | right | right].
  - rewrite E.
    assert (Hn' : dispatch (without_decoded args) world t = None)
      by (apply dispatch_none; now apply (dispatch_none args world)).
    rewrite (unknown_type_reported _ world data t Ht Hn').
    unfold unknown_logged; cbn [fst syslog without_decoded].
    now destruct (syslog args).
  - rewrite E, (report_it_record _ world name p data Ht Hp); cbn [fst].
    pose proof (run_by_course (without_decoded args) world p data
                  (fun sn dt rec => summary_prints world name p sn dt rec Hp))
      as C.
    rewrite (course_without_decoded _ _ _ _ _ _ Co) in C.
    destruct C as [-> _]; reflexivity.
Qed.

Lemma stopped_report (name : string) (p : parts) (data : json) (e : exn) :
  Py.getkey data "type" = OK (JStr name) ->
  parts_of world name = Some p ->
  course_of args p data = Stopped e ->
  sinks (fst (report_it args world data)) = []
  /\ snd (report_it args world data) = Raise e.
Proof.
  intros Ht Hp Co.
  pose proof (run_by_course args world p data
                (fun sn dt rec => summary_prints world name p sn dt rec Hp))
    as C.
  rewrite Co in C; destruct C as [Cs Cr].
  rewrite (report_it_record args world name p data Ht Hp); cbn [fst snd].
  now rewrite Cs, Cr.
Qed.

Lemma build_needs_serial (name : string) (p : parts) (data : json) (e : exn) :
  parts_of world name = Some p ->
  Py.getkey data "serial_number" = Raise e ->
  p_build p data = Raise e.
Proof.
  intros H Hs; each_parts H;
    cbn [p_build evt_precip_parts evt_strike_parts rapid_wind_parts
           obs_air_parts obs_st_parts obs_sky_parts device_status_parts
           hub_status_parts];
    unfold build_from, build_device_status; now rewrite Hs.
Qed.

(** Every routine that builds a record reads [data["serial_number"]],
    with or without multi-sensor mode: an envelope that passes the
    filters and has no serial number is printed raw (with [--raw]) and
    then dropped with that [KeyError]. *)
Theorem missing_serial_number_stops (name : string) (data : json) (e : exn) :
  In name record_names ->
  Py.getkey data "type" = OK (JStr name) ->
  Py.getkey data "serial_number" = Raise e ->
  excluded args name || off_limit args name = false ->
  report_it args world data = (fst (print_raw args data), Raise e).
Proof.
  intros Hn Ht Hs G.
  apply (parts_of_record_names world) in Hn; destruct Hn as [p Hp].
  rewrite (report_it_record args world name p data Ht Hp).
  apply orb_false_iff in G; destruct G as [Gx Gl].
  unfold run; rewrite (parts_of_name world name p Hp), Gx, Gl.
  rewrite when_raw_print_raw, bind_print_raw.
  rewrite (build_needs_serial name p data e Hp Hs), bind_lift_Raise.
  cbn [fst snd lower]; now rewrite app_nil_r.
Qed.

(** In multi-sensor mode the topic is built by string concatenation with
    the serial number: an envelope whose serial number is not a string
    is dropped with an exception before any sink is called. *)
Theorem multisensor_needs_string_serial (name : string) (data sn : json) :
  In name record_names ->
  Py.getkey data "type" = OK (JStr name) ->
  Py.getkey data "serial_number" = OK sn ->
  (forall s, sn <> JStr s) ->
  mqtt_multisensor args = true ->
  excluded args name || off_limit args name = false ->
  sinks (fst (report_it args world data)) = []
  /\ raises (report_it args world data).
Proof.
  intros Hn Ht Hs Hx Hm G.
  apply (parts_of_record_names world) in Hn; destruct Hn as [p Hp].
  assert (S : exists e, course_of args p data = Stopped e).
  { unfold course_of; rewrite (parts_of_name world name p Hp), G.
    destruct (p_build p data) as [[[s d] r]|e] eqn:B; [|eauto].
    apply (build_built world name p data s d r Hp) in B.
    destruct B as [B _]; rewrite Hs in B; injection B as <-.
    destruct (snd (when (decoded args) (p_summary p sn d r))); [|eauto].
    unfold topic_of; rewrite Hm.
    destruct sn; cbn [snd throw]; eauto.
    exfalso; eapply Hx; reflexivity. }
  destruct S as [e Co].
  destruct (stopped_report name p data e Ht Hp Co) as [Ss Sr].
  split; [exact Ss | now exists e].
Qed.

(** The summary of an [obs_sky] record names the precipitation type by
    indexing a list of three names: with [--decoded], an [obs_sky]
    envelope whose precipitation type is beyond 2 (or below -3) is
    dropped with an exception before any sink is called. *)
Theorem obs_sky_precipitation_type_out_of_range (data v : json) (i : Z) :
  Py.getkey data "type" = OK (JStr "obs_sky") ->
  eval_rhs data (obs 12) = OK v ->
  Py.int v = OK i ->
  i < -3 \/ 2 < i ->
  decoded args = true ->
  excluded args "obs_sky" || off_limit args "obs_sky" = false ->
  sinks (fst (report_it args world data)) = []
  /\ raises (report_it args world data).
Proof.
  intros Ht Hv Hi Hr Hd G.
  assert (S : exists e, course_of args (obs_sky_parts world) data = Stopped e).
  { unfold course_of; cbn [p_name obs_sky_parts]; rewrite G.
    destruct (p_build (obs_sky_parts world) data) as [[[s d] r]|e] eqn:B;
      [|eauto].
    apply (build_built world "obs_sky" _ data s d r eq_refl) in B.
    destruct B as [_ [_ A]].
    destruct (assign_spec data _ [] r A (rows_of_distinct "obs_sky" d))
      as [_ [Hl _]]; [intros k _ []|].
    destruct (Hl "precipitation_type" (obs 12)) as [v' [Hv' L]];
      [change (rows_of "obs_sky" d) with obs_sky_rows;
       unfold obs_sky_rows; cbn [In];
       repeat first [left; reflexivity | right]|].
    rewrite Hv in Hv'; injection Hv' as <-.
    assert (R : raises (p_summary (obs_sky_parts world) s d r)).
    { cbn [p_summary obs_sky_parts].
      repeat (lazymatch goal with
              | |- raises (bind (lift (Py.getkey _ "precipitation_type")) _) =>
                  fail
              | _ => apply raises_bind; intros ? _
              end).
      apply raises_bind; intros p Hp; cbn [snd lift Py.getkey] in Hp.
      rewrite L in Hp; injection Hp as <-.
      apply raises_bind; intros j Hj; cbn [snd lift] in Hj.
      rewrite Hi in Hj; injection Hj as <-.
      rewrite (list_index_out_of_range i Hr), bind_lift_Raise.
      now exists IndexError. }
    rewrite Hd; cbn [when]; destruct R as [e ->]; eauto. }
  destruct S as [e Co].
  destruct (stopped_report "obs_sky" _ data e Ht eq_refl Co) as [Ss Sr].
  split; [exact Ss | now exists e].
Qed.

End Stops.

(** Multi-sensor mode with both sinks on. *)
Definition multi_sensor : Args :=
  {| raw := false; decoded := false; syslog := false;
     limit := None; exclude := None; indent := false;
     mqtt := true; mqtt_multisensor := true; no_pub := false;
     mqtt_broker := None; mqtt_topic := None; address := None;
     influxdb := true; influxdb_host := "localhost";
     influxdb_port := 8086; influxdb_user := None; influxdb_pass := None;
     influxdb_db := "smartweather";
     mqtt_user := None; mqtt_pass := None; verbose := false |}.

(** An [obs_sky] envelope whose precipitation type is 3. *)
Definition obs_sky_type_3 : json :=
  JDict [ ("type", JStr "obs_sky");
          ("serial_number", JStr "SK-00008453");
          ("hub_sn", JStr "HB-00000001");
          ("obs", JList [JList [ JInt 1493321340; JInt 9000; JInt 10; JInt 0;
                                 JFloat 26 (-1); JFloat 46 (-1); JFloat 74 (-1);
                                 JInt 187; JFloat 346 (-2); JInt 1; JInt 130;
                                 JNull; JInt 3; JInt 3 ]]);
          ("firmware_revision", JInt 29) ].

Lemma missing_serial_number_stops_example :
  report_it (options true true true true None None) all_up
    (JDict [("type", JStr "evt_precip"); ("evt", JList [JInt 1493322445])])
  = (fst (print_raw (options true true true true None None)
            (JDict [("type", JStr "evt_precip");
                    ("evt", JList [JInt 1493322445])])),
     Raise (KeyError (JStr "serial_number"))).
Proof.
  exact (missing_serial_number_stops
           (options true true true true None None) all_up "evt_precip"
           (JDict [("type", JStr "evt_precip");
                   ("evt", JList [JInt 1493322445])])
           (KeyError (JStr "serial_number"))
           (or_introl eq_refl) eq_refl eq_refl eq_refl).
Defined.

(** A rapid wind envelope whose serial number is a number. *)
Definition numeric_serial : json :=
  JDict [ ("type", JStr "rapid_wind");
          ("serial_number", JInt 1234);
          ("ob", JList [JInt 1600000000; JFloat 25 (-1); JInt 180]) ].

Lemma multisensor_needs_string_serial_example :
  sinks (fst (report_it multi_sensor all_up numeric_serial)) = []
  /\ raises (report_it multi_sensor all_up numeric_serial).
Proof.
  refine (multisensor_needs_string_serial multi_sensor all_up "rapid_wind"
            numeric_serial (JInt 1234)
            (or_intror (or_intror (or_introl eq_refl)))
            eq_refl eq_refl _ eq_refl eq_refl).
  intros s; discriminate.
Defined.

Lemma obs_sky_precipitation_type_out_of_range_example :
  sinks (fst (report_it (options false true true true None None) all_up
                obs_sky_type_3)) = []
  /\ raises (report_it (options false true true true None None) all_up
               obs_sky_type_3).
Proof.
  refine (obs_sky_precipitation_type_out_of_range
            (options false true true true None None) all_up
            obs_sky_type_3 (JInt 3) 3 eq_refl eq_refl eq_refl _ eq_refl eq_refl).
  right; reflexivity.
Defined.

(** ** How many turns the reporter needs *)

Section Turns.

Variable args : Args.
Variable world : World.

(** The envelopes of a queue whose handling raises. *)
Definition raising (q : list json) : list json :=
  filter (fun d => match snd (reporter_handle args world d) with
                   | Raise _ => true
                   | OK _ => false
                   end) q.

Lemma reporter_task_nil (n : nat) : reporter_task args world n [] = ([], []).
Proof. induction n as [|n IH]; [reflexivity|]. cbn; now rewrite IH. Qed.

Lemma reporter_drain_raising (q : list json) :
  exists pre post,
    q = (pre ++ post)%list
    /\ reporter_drain args world q = (flat_map (handle args world) pre, post)
    /\ (post = []
        \/ (List.length (raising post) < List.length (raising q))%nat).
Proof.
  induction q as [|d q IH].
  - exists [], []; repeat split; now left.
  - destruct IH as [pre [post [Hq [Hd Hr]]]]; cbn [reporter_drain].
    unfold raising at 2; cbn [filter]; fold (raising q).
    destruct (snd (reporter_handle args world d)) eqn:R.
    + exists (d :: pre), post; rewrite Hd; cbn [fst snd flat_map].
      split; [now rewrite Hq | split; [reflexivity | exact Hr]].
    + exists [d], q; cbn [flat_map]; unfold handle; rewrite app_nil_r.
      split; [reflexivity | split; [reflexivity | right; cbn; lia]].
Qed.

(** An exception ends one turn of the reporter's outer loop and the next
    turn goes on behind the envelope that raised: a queue is emptied, and
    every envelope handled in queue order, within one turn more than the
    number of envelopes that raise. *)
Theorem reporter_turns (n : nat) (q : list json) :
  (List.length (raising q) < n)%nat ->
  reporter_task args world n q = (flat_map (handle args world) q, []).
Proof.
  revert q; induction n as [|n IH]; intros q Hn; [lia|].
  cbn [reporter_task].
  destruct (reporter_drain_raising q) as [pre [post [Hq [Hd Hr]]]].
  rewrite Hd; cbn [fst snd].
  destruct Hr as [->|Hr].
  - rewrite reporter_task_nil; cbn [fst snd].
    now rewrite Hq, !app_nil_r.
  - rewrite (IH post) by lia; cbn [fst snd].
    now rewrite Hq, flat_map_app.
Qed.

End Turns.

Lemma reporter_turns_example :
  reporter_task (options false false false false None None) all_up 2
    [short_obs_st; rapid_wind_example]
  = (flat_map (handle (options false false false false None None) all_up)
       [short_obs_st; rapid_wind_example], []).
Proof.
  apply (reporter_turns (options false false false false None None) all_up 2
           [short_obs_st; rapid_wind_example]).
  cbn; lia.
Defined.

(** ** Which masks are described alike *)

Lemma low_bit_same (idata k : Z) :
  0 <= k < 9 -> Z.testbit (Z.land idata 0x1FF) k = Z.testbit idata k.
Proof.
  intros Hk; rewrite Z.land_spec.
  assert (T : Z.testbit 0x1FF k = true).
  { assert (C : k = 0 \/ k = 1 \/ k = 2 \/ k = 3 \/ k = 4 \/ k = 5 \/
                k = 6 \/ k = 7 \/ k = 8) by lia.
    repeat (destruct C as [->|C]; [reflexivity|]); now subst. }
  now rewrite T, andb_true_r.
Qed.

(** The flags of a mask are those of its nine low bits. *)
Lemma flags_of_low (idata : Z) : flags_of idata = flags_of (Z.land idata 0x1FF).
Proof.
  unfold flags_of; f_equal; apply filter_ext_in; intros x Hx.
  unfold decode_sensor_status_err_text in Hx; cbn [In] in Hx.
  repeat (destruct Hx as [<-|Hx];
          [symmetry; apply low_bit_same; vm_compute; split; congruence|]).
  contradiction.
Qed.

(** The texts of the 512 masks of nine bits. *)
Definition low_texts : list string :=
  map (fun m => String.concat ", " (flags_of (Z.of_nat m))) (seq 0 512).

Lemma low_texts_distinct : distinct low_texts = true.
Proof. vm_compute; reflexivity. Qed.

Lemma low_texts_not_ok :
  forallb (fun t => negb (t =? "sensors ok")%string) low_texts = true.
Proof. vm_compute; reflexivity. Qed.

Lemma low_text_nth (m : Z) :
  0 <= m < 512 ->
  nth_error low_texts (Z.to_nat m) = Some (String.concat ", " (flags_of m)).
Proof.
  intros Hm; unfold low_texts.
  rewrite nth_error_map, nth_error_seq.
  destruct (Nat.ltb_spec (Z.to_nat m) 512); [|lia].
  cbn [option_map Nat.add]; now rewrite Z2Nat.id by lia.
Qed.

Lemma land_low_range (idata : Z) : 0 <= Z.land idata 0x1FF < 512.
Proof.
  change 0x1FF with (Z.ones 9); rewrite Z.land_ones by lia.
  apply Z.mod_pos_bound; reflexivity.
Qed.

(** Two masks are described by the same text exactly when both are zero
    or both are non-zero and agree on the nine defined bits: the text of
    a non-zero mask never reads "sensors ok", it tells which of the nine
    flags are set and nothing about the bits above them. *)
Theorem decode_sensor_status_same_text (a b : Z) :
  decode_sensor_status (JInt a) = decode_sensor_status (JInt b)
  <-> (a = 0 /\ b = 0)
      \/ (a <> 0 /\ b <> 0 /\ Z.land a 0x1FF = Z.land b 0x1FF).
Proof.
  assert (N : forall m, m <> 0 ->
                decode_sensor_status (JInt m)
                = OK (String.concat ", " (flags_of (Z.land m 0x1FF))))
    by (intros m Hm; rewrite decode_nonzero by assumption;
        now rewrite <- flags_of_low).
  assert (K : forall m, m <> 0 ->
                decode_sensor_status (JInt m) <> OK "sensors ok").
  { intros m Hm E; rewrite (N m Hm) in E; injection E as E.
    pose proof (low_text_nth _ (land_low_range m)) as L.
    apply nth_error_In in L; rewrite E in L.
    pose proof low_texts_not_ok as F; rewrite forallb_forall in F.
    specialize (F _ L); cbn in F; discriminate. }
  split.
  - intros E; destruct (Z.eq_dec a 0) as [->|Ha], (Z.eq_dec b 0) as [->|Hb].
    + now left.
    + exfalso; apply (K b Hb); now rewrite <- E.
    + exfalso; apply (K a Ha); now rewrite E.
    + right; split; [exact Ha | split; [exact Hb|]].
      rewrite (N a Ha), (N b Hb) in E; injection E as E.
      pose proof (low_text_nth _ (land_low_range a)) as La.
      pose proof (low_text_nth _ (land_low_range b)) as Lb.
      rewrite E in La.
      assert (D : NoDup low_texts)
        by (apply distinct_NoDup, low_texts_distinct).
      pose proof (land_low_range a); pose proof (land_low_range b).
      assert (I : Z.to_nat (Z.land a 0x1FF) = Z.to_nat (Z.land b 0x1FF)).
      { apply (proj1 (NoDup_nth_error low_texts) D);
          [apply nth_error_Some; rewrite La; discriminate | congruence]. }
      lia.
  - intros [[-> ->]|[Ha [Hb E]]]; [reflexivity|].
    now rewrite (N a Ha), (N b Hb), E.
Qed.

(** ** Lists of type names in [--limit] and [--exclude] *)

(** A character occurs in a string. *)
Fixpoint has (c : ascii) (s : string) : bool :=
  match s with
  | EmptyString => false
  | String x s' => Ascii.eqb x c || has c s'
  end.

(** No type name occurs inside another. *)
Lemma names_not_nested :
  forallb (fun a => forallb (fun b =>
     Bool.eqb (Py.str_in a b) (a =? b)%string) type_names) type_names = true.
Proof. vm_compute; reflexivity. Qed.

Lemma bool_eq_iff (b1 b2 : bool) : (b1 = true <-> b2 = true) -> b1 = b2.
Proof.
  destruct b1, b2; intros [H1 H2]; try reflexivity;
    [symmetry; now apply H1 | now apply H2].
Qed.

Lemma prefix_before (c : ascii) (a : string) :
  has c a = false ->
  forall x t post,
    (a ++ post)%string = (x ++ String c t)%string ->
    exists post', x = (a ++ post')%string.
Proof.
  induction a as [|z a IH]; intros Hc x t post H; [now exists x|].
  cbn [has] in Hc; apply orb_false_iff in Hc; destruct Hc as [Hz Hc].
  destruct x as [|y x]; cbn [append] in H; injection H as -> H.
  - rewrite Ascii.eqb_refl in Hz; discriminate.
  - destruct (IH Hc x t post H) as [post' ->]; now exists post'.
Qed.

(** A string that holds no [c] and occurs in [x], [c], [t] occurs in [x]
    or in [t]. *)
Lemma occurs_across (c : ascii) (a : string) :
  a <> "" -> has c a = false ->
  forall x t, occurs a (x ++ String c t) -> occurs a x \/ occurs a t.
Proof.
  intros Ha Hc x t [pre [post H]]; revert pre H.
  induction x as [|y x IH]; intros pre H; cbn [append] in H.
  - destruct pre as [|y' pre]; cbn [append] in H.
    + destruct a as [|z a]; [congruence|].
      cbn [append] in H; injection H as <- _.
      cbn [has] in Hc; rewrite Ascii.eqb_refl in Hc; discriminate.
    + injection H as _ ->; right; now exists pre, post.
  - destruct pre as [|y' pre]; cbn [append] in H.
    + destruct (prefix_before c a Hc (String y x) t post (eq_sym H))
        as [post' E].
      left; exists "", post'; exact E.
    + injection H as <- H; destruct (IH pre H) as [[p [q ->]]|R];
        [left; now exists (String y p), q | now right].
Qed.

Section Lists.

Variable c : ascii.
Hypothesis clean : forallb (fun n => negb (has c n)) type_names = true.

Lemma name_clean (a : string) : In a type_names -> has c a = false.
Proof.
  intros H; pose proof clean as C; rewrite forallb_forall in C.
  apply negb_true_iff; now apply C.
Qed.

Lemma name_in_name (a b : string) :
  In a type_names -> In b type_names -> occurs a b <-> a = b.
Proof.
  intros Ha Hb; pose proof names_not_nested as N.
  rewrite forallb_forall in N; specialize (N a Ha).
  rewrite forallb_forall in N; specialize (N b Hb).
  apply Bool.eqb_prop in N; rewrite <- str_in_iff, N.
  apply String.eqb_eq.
Qed.

Lemma name_in_list (a : string) (ns : list string) :
  In a type_names ->
  Forall (fun n => In n type_names) ns ->
  occurs a (String.concat (String c "") ns) <-> In a ns.
Proof.
  intros Ha; induction 1 as [|x xs Hx Hxs IH]; cbn [String.concat].
  - split; [intros [pre [post H]] | intros []].
    apply (type_names_nonempty a Ha).
    destruct pre; [destruct a; [reflexivity | discriminate] | discriminate].
  - destruct xs as [|y zs].
    + rewrite (name_in_name a x Ha Hx); cbn [In]; split;
        [intros ->; now left | intros [->|[]]; reflexivity].
    + change (x ++ String c "" ++ String.concat (String c "") (y :: zs))%string
        with (x ++ String c (String.concat (String c "") (y :: zs)))%string.
      split.
      * intros O.
        destruct (occurs_across c a (type_names_nonempty a Ha)
                    (name_clean a Ha) _ _ O) as [L|R].
        -- left; symmetry; now apply (name_in_name a x Ha Hx).
        -- right; now apply IH.
      * intros [->|R].
        -- exists "", (String c (String.concat (String c "") (y :: zs)));
             reflexivity.
        -- apply IH in R; destruct R as [pre [post ->]].
           exists (x ++ String c pre)%string, post.
           now rewrite append_assoc.
Qed.

(** A list of type names, separated by a character that is in no type
    name (a comma, say), works as a list in both options although the
    source only tests for a substring: with [--limit] a type passes
    exactly when it is in the list, with [--exclude] exactly when it is
    not. *)
Theorem separated_names_filter (args : Args) (ls xs : list string) (a : string) :
  In a type_names ->
  Forall (fun n => In n type_names) ls ->
  Forall (fun n => In n type_names) xs ->
  ls <> [] ->
  limit args = Some (String.concat (String c "") ls) ->
  exclude args = Some (String.concat (String c "") xs) ->
  off_limit args a = negb (existsb (String.eqb a) ls)
  /\ excluded args a = existsb (String.eqb a) xs.
Proof.
  intros Ha Hls Hxs Hne Hl Hx.
  assert (M : forall ns, Forall (fun n => In n type_names) ns ->
                Py.str_in a (String.concat (String c "") ns)
                = existsb (String.eqb a) ns).
  { intros ns Hns; apply bool_eq_iff.
    rewrite str_in_iff, (name_in_list a ns Ha Hns), existsb_exists; split.
    - intros H; exists a; split; [exact H | apply String.eqb_refl].
    - intros [n [Hn E]]; apply String.eqb_eq in E; now subst. }
  unfold off_limit, excluded; rewrite Hl, Hx, (M ls Hls), (M xs Hxs); split.
  - destruct ls as [|l ls']; [congruence|].
    inversion Hls as [|? ? Hl0 _]; subst.
    assert (E : (String.concat (String c "") (l :: ls') =? "")%string = false).
    { apply String.eqb_neq; cbn [String.concat].
      pose proof (type_names_nonempty l Hl0).
      destruct ls'; destruct l; cbn; congruence. }
    now rewrite E.
  - destruct xs as [|x xs']; [reflexivity|].
    inversion Hxs as [|? ? Hx0 _]; subst.
    assert (E : (String.concat (String c "") (x :: xs') =? "")%string = false).
    { apply String.eqb_neq; cbn [String.concat].
      pose proof (type_names_nonempty x Hx0).
      destruct xs'; destruct x; cbn; congruence. }
    now rewrite E.
Qed.

End Lists.

Lemma separated_names_filter_example :
  off_limit (options true true true true (Some "obs_air,obs_sky")
               (Some "rapid_wind")) "obs_st" = true
  /\ excluded (options true true true true (Some "obs_air,obs_sky")
                 (Some "rapid_wind")) "obs_st" = false.
Proof.
  refine (separated_names_filter ","%char eq_refl
            (options true true true true (Some "obs_air,obs_sky")
               (Some "rapid_wind"))
            ["obs_air"; "obs_sky"] ["rapid_wind"] "obs_st"
            _ _ _ _ eq_refl eq_refl).
  - unfold type_names; cbn [In]; tauto.
  - repeat constructor; unfold type_names; cbn [In]; tauto.
  - repeat constructor; unfold type_names; cbn [In]; tauto.
  - discriminate.
Defined.

(** ** Envelopes that reach the sinks *)

Section Delivery.

Variable args : Args.
Variable world : World.

(** An envelope whose record can be built and whose topic can be formed
    is delivered (here without [--decoded], whose summary comes in
    between): the record is published if asked for, then written if
    asked for.  A broker that cannot be reached ends the routine with its
    exception before the write; a database client that cannot be made
    ends it with [UnboundLocalError], raised by the handler that reports
    the failure, after the publish has been made. *)
Theorem complete_envelope_is_delivered
  (name : string) (data sn : json) (dt : string)
  (rec : list (string * json)) (topic : string) :
  In name record_names ->
  Py.getkey data "type" = OK (JStr name) ->
  built name data sn dt rec ->
  snd (topic_of args sn (tail_of name dt)) = OK topic ->
  excluded args name || off_limit args name = false ->
  decoded args = false ->
  sinks (fst (report_it args world data))
  = (published args topic rec
     ++ if broker_fails args world then []
        else written args world (event_of name topic) rec)%list
  /\ snd (report_it args world data)
     = if broker_fails args world then Raise SinkError
       else if influxdb args && negb (influx_client_ok world)
            then Raise UnboundLocalError
            else OK tt.
Proof.
  intros Hn Ht Hb Htop G Hd.
  apply (parts_of_record_names world) in Hn; destruct Hn as [p Hp].
  destruct (parts_tail_event world name p Hp) as [Tl Ev].
  assert (Co : course_of args p data = Reached sn dt rec topic).
  { unfold course_of; rewrite (parts_of_name world name p Hp), G.
    rewrite (proj2 (build_built world name p data sn dt rec Hp) Hb), Hd.
    cbn [when ret snd]; now rewrite Tl, Htop. }
  pose proof (run_by_course args world p data
                (fun sn dt rec => summary_prints world name p sn dt rec Hp))
    as C.
  rewrite Co in C; destruct C as [Cs Cr].
  rewrite (report_it_record args world name p data Ht Hp); cbn [fst snd].
  rewrite Cs, Cr, Ev; split; [reflexivity|].
  destruct (broker_fails args world); [reflexivity|].
  now destruct (influxdb args && negb (influx_client_ok world)).
Qed.

(** Whatever happens to an envelope of a known type that passes the
    filters, its raw print (with [--raw]) comes first: it is made before
    the record is built, so also for envelopes that are then dropped. *)
Theorem raw_print_comes_first (name : string) (data : json) :
  In name type_names ->
  Py.getkey data "type" = OK (JStr name) ->
  excluded args name || off_limit args name = false ->
  exists rest,
    fst (report_it args world data)
    = (fst (print_raw args data) ++ rest)%list.
Proof.
  intros Hn Ht G; apply orb_false_iff in G; destruct G as [Gx Gl].
  destruct (report_it_ways args world data _ Ht)
    as [[n [p [[= <-] Hp]]]|[[n [[= <-] Hd]]|D]].
  - rewrite (report_it_record args world name p data Ht Hp); cbn [fst].
    unfold run; rewrite (parts_of_name world name p Hp), Gx, Gl.
    rewrite when_raw_print_raw, bind_print_raw; cbn [fst]; eauto.
  - rewrite (report_it_debug args world name data Ht Hd); cbn [fst].
    unfold run_debug; rewrite Gx, Gl, when_raw_print_raw, bind_print_raw.
    cbn [fst]; eauto.
  - exfalso.
    exact (proj1 (dispatch_none args world (JStr name)) D name Hn eq_refl).
Qed.

End Delivery.

Lemma complete_envelope_is_delivered_example :
  sinks (fst (report_it multi_sensor all_up rapid_wind_example))
  = (published multi_sensor "sensors/ST-00001234/wf/rapid_wind"
       [ ("timestamp", JInt 1600000000); ("speed", JFloat 25 (-1));
         ("direction", JInt 180) ]
     ++ written multi_sensor all_up "sensors/ST-00001234/wf/rapid_wind"
          [ ("timestamp", JInt 1600000000); ("speed", JFloat 25 (-1));
            ("direction", JInt 180) ])%list.
Proof.
  exact (proj1 (complete_envelope_is_delivered multi_sensor all_up
                  "rapid_wind" rapid_wind_example (JStr "ST-00001234") ""
                  [ ("timestamp", JInt 1600000000); ("speed", JFloat 25 (-1));
                    ("direction", JInt 180) ]
                  "sensors/ST-00001234/wf/rapid_wind"
                  (or_intror (or_intror (or_introl eq_refl)))
                  eq_refl (conj eq_refl (conj eq_refl eq_refl))
                  eq_refl eq_refl eq_refl)).
Defined.

Lemma raw_print_comes_first_example :
  exists rest,
    fst (report_it (options true false true true None None) all_up
           short_obs_st)
    = (fst (print_raw (options true false true true None None) short_obs_st)
       ++ rest)%list.
Proof.
  refine (raw_print_comes_first (options true false true true None None)
            all_up "obs_st" short_obs_st _ eq_refl eq_refl).
  unfold type_names; cbn [In]; tauto.
Defined.
